(** * larinha: expense dashboard for federal deputies (app.py)

    A shallow embedding of the data pipeline of [app.py]: the lookup of a
    deputy by name ([buscar_deputado_id]), the paginated download of the
    deputy's expenses ([buscar_todas_despesas]) and the module-level
    aggregation with pandas (group by [tipoDespesa], sum [valorLiquido],
    sort descending), followed by the properties of the specification that
    are checked against it.

    Conventions of the embedding.
    - A value decoded by [response.json()] is a [json] tree.  A JSON object
      keeps its members in document order; a repeated key is resolved as
      Python's decoder does (the last occurrence wins).
    - Python exceptions are values of [exn]; a computation that may raise
      has type [res A].
    - The network and the Streamlit page are an explicit [world]: the list
      of requests sent so far and the list of elements written to the page.
    - The remote service is a function from requests to replies, a
      parameter of every operation.
    - [while True] is a fixpoint with fuel; [None] means the fuel ran out.
    - [buscar_deputado_id] and [buscar_todas_despesas] are the bodies of
      the two functions: what a call runs when its argument is not in the
      cache of [@st.cache_data].  The cache itself, which answers a
      repeated call of a session without running the body, is not
      modelled.
    - A Python [int] is an integer of [Z], a Python [float] a binary64
      number of [PrimFloat].
    - Of pandas, the aggregation is modelled for records that are JSON
      objects, categories that are strings or missing, and amounts that
      are numbers within int64 or binary64, numerals in strings, or
      missing; on any other input that raises nothing the model gives no
      answer ([None]).  The conversion of strings to numbers and the
      final sort, whose order of equal totals depends on the build of
      NumPy, are parameters. *)

From Stdlib Require Import Ascii ZArith PrimFloat Uint63.
From stdpp Require Import base option list gmap strings sorting.

#[local] Set Warnings "-register-all".
#[local] Open Scope Z_scope.

(** ** JSON values and the Python operations the program applies to them *)

Inductive json : Type :=
| JNull
| JBool (b : bool)
| JInt (z : Z)
| JFloat (f : float)
| JStr (s : string)
| JArr (items : list json)
| JObj (members : list (string * json)).

(** Exceptions of [requests.exceptions.RequestException] and its subclasses:
    what [requests.get], [raise_for_status] and [Response.json] raise. *)
Inductive request_exception : Type :=
| ConnectionError (msg : string)
| Timeout (msg : string)
| HTTPError (status_code : Z)
| JSONDecodeError.

Inductive exn : Type :=
| RequestException (e : request_exception)
| KeyError (key : json)
| IndexError
| TypeError
| ValueError (value : string)
| AttributeError.

Inductive res (A : Type) : Type :=
| Ok (a : A)
| Raise (e : exn).
Arguments Ok {A} a.
Arguments Raise {A} e.

#[global] Instance res_ret : MRet res := @Ok.
#[global] Instance res_bind : MBind res := λ A B f m,
  match m with
  | Ok a => f a
  | Raise e => Raise e
  end.

Module Py.

(** [d[k]] on a decoded object: the last member named [k]. *)
Fixpoint dict_get (k : string) (members : list (string * json)) : option json :=
  match members with
  | [] => None
  | (k', v) :: rest =>
      match dict_get k rest with
      | Some v' => Some v'
      | None => if String.eqb k k' then Some v else None
      end
  end.

(** The keys of a decoded object, each once, in order of first occurrence. *)
Fixpoint dict_keys (members : list (string * json)) (seen : list string) : list string :=
  match members with
  | [] => []
  | (k, _) :: rest =>
      if existsb (String.eqb k) seen then dict_keys rest seen
      else k :: dict_keys rest (k :: seen)
  end.

(** A byte that continues a character of a UTF-8 string. *)
Definition continuation (s : string) : bool :=
  match s with
  | String c _ => (128 <=? Z.of_nat (nat_of_ascii c)) && (Z.of_nat (nat_of_ascii c) <? 192)
  | EmptyString => false
  end.

(** The characters of a string, each with the bytes that encode it. *)
Fixpoint code_points (s : string) : list string :=
  match s with
  | EmptyString => []
  | String c s' =>
      match code_points s' with
      | p :: ps => if continuation p then String c p :: ps
                   else String c EmptyString :: p :: ps
      | [] => [String c EmptyString]
      end
  end.

Definition chars (s : string) : list json := JStr <$> code_points s.

(** [bool(x)] *)
Definition truthy (x : json) : bool :=
  match x with
  | JNull => false
  | JBool b => b
  | JInt z => negb (z =? 0)
  | JFloat f => negb (f =? 0)%float
  | JStr s => negb (String.eqb s "")
  | JArr items => match items with [] => false | _ => true end
  | JObj members => match members with [] => false | _ => true end
  end.

(** [x[k]] with a string subscript. *)
Definition getitem (x : json) (k : string) : res json :=
  match x with
  | JObj members =>
      match dict_get k members with
      | Some v => Ok v
      | None => Raise (KeyError (JStr k))
      end
  | _ => Raise TypeError
  end.

(** [x[0]] *)
Definition getitem0 (x : json) : res json :=
  match x with
  | JArr (first :: _) => Ok first
  | JArr [] => Raise IndexError
  | JStr s =>
      match code_points s with
      | c :: _ => Ok (JStr c)
      | [] => Raise IndexError
      end
  | JObj _ => Raise (KeyError (JInt 0))
  | _ => Raise TypeError
  end.

(** [iter(x)], as used by [for ... in x] and by [list.extend(x)]. *)
Definition iter (x : json) : res (list json) :=
  match x with
  | JArr items => Ok items
  | JStr s => Ok (chars s)
  | JObj members => Ok (JStr <$> dict_keys members [])
  | _ => Raise TypeError
  end.

Definition hashable (x : json) : bool :=
  match x with
  | JArr _ | JObj _ => false
  | _ => true
  end.

(** ['next' == x] *)
Definition eq_str (s : string) (x : json) : bool :=
  match x with
  | JStr s' => String.eqb s s'
  | _ => false
  end.

End Py.

(** ** The network and the page *)

(** The two endpoints the program calls, with the parameters it varies.
    [GET_deputados nome] is
    [GET {API_URL}/deputados?nome={nome}&ordem=ASC&ordenarPor=nome];
    [GET_despesas deputado_id pagina itens] is
    [GET {API_URL}/deputados/{deputado_id}/despesas?pagina={pagina}&itens={itens}&ordenarPor=dataDocumento]. *)
Inductive request : Type :=
| GET_deputados (nome : string)
| GET_despesas (deputado_id : json) (pagina : nat) (itens : nat).

(** A [requests.Response]: its status and its body, [None] when the body
    is not a JSON document. *)
Record Response : Type := { status_code : Z; body : option json }.

(** What [requests.get] does: raise, or return a response. *)
Inductive reply : Type :=
| Fails (e : request_exception)
| Responds (r : Response).

(** A number of a pandas column: an element of an int64 column or of a
    float64 column. *)
Inductive number : Type :=
| NInt (z : Z)
| NFloat (f : float).

(** The table shown by [st.dataframe] and plotted by [px.bar]: columns
    ['Tipo de Despesa'] and ['Valor Total (R$)']. *)
Definition tabela : Type := list (string * number).

(** The elements the script writes to the page, one constructor per call
    site, carrying the values interpolated in its message. *)
Inductive element : Type :=
| error_buscar_deputado (e : request_exception)
    (* st.error(f"Erro ao buscar deputado: {e}") *)
| error_buscar_despesas (pagina : nat) (e : request_exception)
    (* st.error(f"Erro ao buscar despesas (página {pagina}): {e}") *)
| warning_digite_um_nome
    (* st.warning("Por favor, digite um nome para a busca.") *)
| error_nenhum_deputado
    (* st.error("Nenhum deputado encontrado com esse nome. Tente novamente.") *)
| success_deputado_encontrado (nome partido uf : json)
    (* st.success(f"Deputado encontrado: **{nome_encontrado} ({partido_uf})**") *)
| info_sem_despesas
    (* st.info("Este deputado não possui registros de despesas.") *)
| info_total_registros (n : nat)
    (* st.info(f"Total de {len(lista_despesas)} registros de despesa encontrados.") *)
| plotly_chart (fig : tabela)
| subheader_dados_agrupados
| dataframe (t : tabela).

Record world : Type := { sent : list request; page : list element }.

Definition send (rq : request) (w : world) : world :=
  {| sent := sent w ++ [rq]; page := page w |}.

Definition show (el : element) (w : world) : world :=
  {| sent := sent w; page := page w ++ [el] |}.

(** Computations that raise and act on the world. *)
Definition M (A : Type) : Type := world → res A * world.

#[global] Instance M_ret : MRet M := λ A a w, (Ok a, w).
#[global] Instance M_bind : MBind M := λ A B f m w,
  match m w with
  | (Ok a, w') => f a w'
  | (Raise e, w') => (Raise e, w')
  end.

Definition lift {A} (r : res A) : M A := λ w, (r, w).

(** [try: body except requests.exceptions.RequestException as e: handler] *)
Definition try_except {A} (body : M A) (handler : request_exception → M A) : M A :=
  λ w,
    match body w with
    | (Raise (RequestException e), w') => handler e w'
    | other => other
    end.

Definition st_element (el : element) : M unit := λ w, (Ok (), show el w).

Module Info.
(** The dictionary returned by [buscar_deputado_id]. *)
Record t : Type := { id : json; nome : json; partido : json; uf : json }.
End Info.

Section Pipeline.

(** The remote service. *)
Variable upstream : request → reply.

(** [requests.get(url, params=params)] *)
Definition requests_get (rq : request) : M Response := λ w,
  match upstream rq with
  | Fails e => (Raise (RequestException e), send rq w)
  | Responds r => (Ok r, send rq w)
  end.

(** [response.raise_for_status()]: [HTTPError] for 4xx and 5xx. *)
Definition raise_for_status (response : Response) : res unit :=
  if (400 <=? status_code response) && (status_code response <? 600)
  then Raise (RequestException (HTTPError (status_code response)))
  else Ok ().

(** [response.json()] *)
Definition response_json (response : Response) : res json :=
  match body response with
  | Some dados => Ok dados
  | None => Raise (RequestException JSONDecodeError)
  end.

(** *** app.py, lines 12-37 *)
Definition buscar_deputado_id (nome : string) : M (option Info.t) :=
  try_except
    (response ← requests_get (GET_deputados nome);
     _ ← lift (raise_for_status response);
     dados ← lift (response_json response);
     resultados ← lift (Py.getitem dados "dados");
     if Py.truthy resultados then
       primeiro_resultado ← lift (Py.getitem0 resultados);
       id ← lift (Py.getitem primeiro_resultado "id");
       nome ← lift (Py.getitem primeiro_resultado "nome");
       partido ← lift (Py.getitem primeiro_resultado "siglaPartido");
       uf ← lift (Py.getitem primeiro_resultado "siglaUf");
       mret (Some {| Info.id := id; Info.nome := nome;
                     Info.partido := partido; Info.uf := uf |})
     else mret None)
    (λ e, _ ← st_element (error_buscar_deputado e); mret None).

(** *** app.py, lines 42-73 *)

(** [{link['rel']: link['href'] for link in ...}], the dictionary built
    so far being [links] (newest entry first). *)
Fixpoint links_comprehension (items : list json) (links : list (json * json))
  : res (list (json * json)) :=
  match items with
  | [] => Ok links
  | link :: rest =>
      rel ← Py.getitem link "rel";
      href ← Py.getitem link "href";
      if Py.hashable rel then links_comprehension rest ((rel, href) :: links)
      else Raise TypeError
  end.

(** ['next' in links] *)
Definition has_next (links : list (json * json)) : bool :=
  existsb (λ entry, Py.eq_str "next" entry.1) links.

(** How one pass through the body of the loop ends. *)
Inductive flow : Type :=
| Break
| Continue.

(** Lines 59-67: the statements of the [try] block after the response
    was decoded.  Returns the local variables [todas_despesas] and
    [pagina] as the pass leaves them. *)
Definition process_page (dados : json) (todas_despesas : list json) (pagina : nat)
  : res (flow * list json * nat) :=
  registros ← Py.getitem dados "dados";
  if Py.truthy registros then
    novos ← Py.iter registros;
    let todas_despesas := todas_despesas ++ novos in
    items ← Py.getitem dados "links" ≫= Py.iter;
    links ← links_comprehension items [];
    if negb (has_next links) then Ok (Break, todas_despesas, pagina)
    else Ok (Continue, todas_despesas, S pagina)
  else Ok (Break, todas_despesas, pagina).

(** Lines 50-67: the [try] block. *)
Definition try_block (deputado_id : json) (todas_despesas : list json) (pagina : nat)
  : M (flow * list json * nat) :=
  response ← requests_get (GET_despesas deputado_id pagina 100);
  _ ← lift (raise_for_status response);
  dados ← lift (response_json response);
  lift (process_page dados todas_despesas pagina).

(** Lines 48-73: [while True], then [return todas_despesas].  A
    [RequestException] can only be raised before the block touches
    [todas_despesas], so the handler finds the list as the pass received
    it.  Any other exception leaves the function. *)
Fixpoint while_True (fuel : nat) (deputado_id : json)
    (todas_despesas : list json) (pagina : nat) (w : world)
  : option (res (list json) * world) :=
  match fuel with
  | O => None
  | S fuel' =>
      match try_block deputado_id todas_despesas pagina w with
      | (Ok (Continue, todas_despesas', pagina'), w') =>
          while_True fuel' deputado_id todas_despesas' pagina' w'
      | (Ok (Break, todas_despesas', _), w') => Some (Ok todas_despesas', w')
      | (Raise (RequestException e), w') =>
          Some (Ok todas_despesas, show (error_buscar_despesas pagina e) w')
      | (Raise e, w') => Some (Raise e, w')
      end
  end.

Definition buscar_todas_despesas (fuel : nat) (deputado_id : json) (w : world)
  : option (res (list json) * world) :=
  while_True fuel deputado_id [] 1%nat w.

End Pipeline.


(** ** The aggregation (app.py, lines 112-124) *)

(** Stable insertion sort: [x] is placed before the first element that
    need not precede it.  [before y x] says that [y] must come strictly
    before [x]. *)
Fixpoint insert_by {A} (before : A → A → bool) (x : A) (l : list A) : list A :=
  match l with
  | [] => [x]
  | y :: l' => if before y x then y :: insert_by before x l' else x :: l
  end.

Definition sort_by {A} (before : A → A → bool) (l : list A) : list A :=
  foldr (insert_by before) [] l.

Module Np.

(** The integers of an int64 column. *)
Definition int64 (z : Z) : bool := (- 2 ^ 63 <=? z) && (z <? 2 ^ 63).

(** The int64 a sum of int64 comes out as: the addition wraps around. *)
Definition wrap64 (z : Z) : Z := (z + 2 ^ 63) mod 2 ^ 64 - 2 ^ 63.

(** [x != x] *)
Definition isnan (f : float) : bool := negb (f =? f)%float.

(** The float64 of an int64, rounded to nearest. *)
Definition float_of_int64 (z : Z) : float :=
  match z with
  | Z0 => 0%float
  | Zpos _ => of_uint63 (Uint63.of_Z z)
  | Zneg p =>
      if z =? - 2 ^ 63 then (- (of_uint63 (Uint63.of_Z (2 ^ 62)) * 2))%float
      else (- of_uint63 (Uint63.of_Z (Zpos p)))%float
  end.

(** [a < b] on the numbers of one column. *)
Definition ltb (a b : number) : bool :=
  match a, b with
  | NInt x, NInt y => x <? y
  | NFloat x, NFloat y => (x <? y)%float
  | NInt x, NFloat y => (float_of_int64 x <? y)%float
  | NFloat x, NInt y => (x <? float_of_int64 y)%float
  end.

End Np.

Module Pd.

(** A frame built from a list of records: the rows are the records, a
    column is read by name. *)
Definition frame : Type := list (list (string * json)).

(** [pd.DataFrame(lista_despesas)].  The records of the service are JSON
    objects; for a list that holds anything else the model gives no
    answer. *)
Definition DataFrame (lista_despesas : list json) : option frame :=
  mapM (λ x, match x with JObj members => Some members | _ => None end)
       lista_despesas.

(** [df[k]]: [KeyError] when no record has the key; a record without the
    key contributes a missing value. *)
Definition column (k : string) (df : frame) : res (list json) :=
  if existsb (λ row, bool_decide (is_Some (Py.dict_get k row))) df
  then Ok ((λ row, default JNull (Py.dict_get k row)) <$> df)
  else Raise (KeyError (JStr k)).

(** A numeric column with its dtype. *)
Inductive coluna : Type :=
| Int64 (zs : list Z)
| Float64 (fs : list float).

(** The column [pd.to_numeric] returns for the numbers it has read: int64
    when every one of them is an integer, float64 otherwise, with the
    integers converted. *)
Definition Series (valores : list number) : coluna :=
  match mapM (λ n, match n with NInt z => Some z | NFloat _ => None end) valores with
  | Some zs => Int64 zs
  | None =>
      Float64 ((λ n, match n with
                     | NInt z => Np.float_of_int64 z
                     | NFloat f => f
                     end) <$> valores)
  end.

(** One step of the sum of a group of an int64 column. *)
Definition add_int (sumx z : Z) : Z := Np.wrap64 (sumx + z).

(** One step of the sum of a group of a float64 column, as pandas'
    [group_sum] has it: the running sum and its compensation (Kahan);
    a NaN is skipped, and a compensation that is NaN is reset. *)
Definition add_float (acc : float * float) (val : float) : float * float :=
  if Np.isnan val then acc
  else
    let y := (val - acc.2)%float in
    let t := (acc.1 + y)%float in
    let compensation := (t - acc.1 - y)%float in
    (t, if Np.isnan compensation then 0%float else compensation).

(** The sums of the groups: the rows are taken in order, a row without a
    key is dropped, a key enters the result with its first row. *)
Definition group_sum {A B} (add : A → B → A) (zero : A)
    (rows : list (option string * B)) : gmap string A :=
  fold_left (λ sums row,
               match row.1 with
               | Some k => <[k := add (default zero (sums !! k)) row.2]> sums
               | None => sums
               end) rows ∅.

(** [groupby(key)[value].sum()] *)
Definition groupby_sum (chaves : list (option string)) (col : coluna)
  : gmap string number :=
  match col with
  | Int64 zs => NInt <$> group_sum add_int 0 (zip chaves zs)
  | Float64 fs =>
      (λ acc, NFloat acc.1) <$> group_sum add_float (0%float, 0%float) (zip chaves fs)
  end.

(** [reset_index()]: the groups as rows, in ascending order of the key. *)
Definition reset_index (sums : gmap string number) : tabela :=
  sort_by (λ y x, String.ltb y.1 x.1) (map_to_list sums).

(** The grouping key of one row.  [Some None] is a missing key.  The
    service sends strings; a list or an object cannot be a key.  pandas
    also groups by a number or a boolean: the model gives no answer for
    them ([None]). *)
Definition group_key (x : json) : res (option (option string)) :=
  match x with
  | JStr s => Ok (Some (Some s))
  | JNull => Ok (Some None)
  | JBool _ | JInt _ | JFloat _ => Ok None
  | JArr _ | JObj _ => Raise TypeError
  end.

Section Parameters.

(** pandas' conversion of a non-empty string to a number: [None] when the
    string is not a number. *)
Variable str_to_number : string → option number.

(** [sort_values(by='Valor Total (R$)', ascending=False)]. *)
Variable sort_values : tabela → tabela.

(** An integer that an int64 column holds; the model gives no answer for
    the others ([None]). *)
Definition within_int64 (n : number) : option number :=
  match n with
  | NInt z => if Np.int64 z then Some n else None
  | NFloat _ => Some n
  end.

(** [pd.to_numeric] on one value.  A missing value and the empty string
    are NaN.  The model gives no answer ([None]) for a boolean and for an
    integer beyond int64. *)
Definition to_numeric1 (x : json) : res (option number) :=
  match x with
  | JNull => Ok (Some (NFloat nan))
  | JBool _ => Ok None
  | JInt z => Ok (within_int64 (NInt z))
  | JFloat f => Ok (Some (NFloat f))
  | JStr s =>
      if String.eqb s "" then Ok (Some (NFloat nan))
      else match str_to_number s with
           | Some n => Ok (within_int64 n)
           | None => Raise (ValueError s)
           end
  | JArr _ | JObj _ => Raise TypeError
  end.

(** [pd.to_numeric(df['valorLiquido'])]: the first value that does not
    convert raises. *)
Definition to_numeric (col : list json) : res (list (option number)) :=
  mapM to_numeric1 col.

(** Lines 112-121: from [lista_despesas] to the grouped table. *)
Definition agrupar (lista_despesas : list json) : option (res tabela) :=
  df ← DataFrame lista_despesas;
  match column "valorLiquido" df ≫= to_numeric with
  | Raise e => Some (Raise e)
  | Ok valorLiquido =>
      match column "tipoDespesa" df ≫= mapM group_key with
      | Raise e => Some (Raise e)
      | Ok tipoDespesa =>
          valores ← mapM id valorLiquido;
          chaves ← mapM id tipoDespesa;
          Some (Ok (reset_index (groupby_sum chaves (Series valores))))
      end
  end.

(** Lines 112-124: from [lista_despesas] to [despesas_agrupadas]. *)
Definition despesas_agrupadas (lista_despesas : list json) : option (res tabela) :=
  match agrupar lista_despesas with
  | Some (Ok t) => Some (Ok (sort_values t))
  | other => other
  end.

End Parameters.

(** *** Values of the parameters used to run the scenarios *)

(** Plain decimal numerals: an optional sign, digits, an optional point
    and digits; an integer without a point.  On other strings it answers
    that they are not numbers, which pandas does not do for all of them. *)
Definition digit (c : ascii) : option Z :=
  let n := Z.of_nat (nat_of_ascii c) in
  if (48 <=? n) && (n <=? 57) then Some (n - 48) else None.

Fixpoint fraction (s : string) (num den : Z) : option number :=
  match s with
  | EmptyString =>
      Some (NFloat (Np.float_of_int64 num / Np.float_of_int64 den))
  | String c s' =>
      match digit c with
      | Some d => fraction s' (10 * num + d) (10 * den)
      | None => None
      end
  end.

Fixpoint unsigned (s : string) (num : Z) : option number :=
  match s with
  | EmptyString => Some (NInt num)
  | String c s' =>
      if Ascii.eqb c "."%char then fraction s' num 1
      else match digit c with
           | Some d => unsigned s' (10 * num + d)
           | None => None
           end
  end.

Fixpoint has_digit (s : string) : bool :=
  match s with
  | EmptyString => false
  | String c s' => bool_decide (is_Some (digit c)) || has_digit s'
  end.

Definition negate (n : number) : number :=
  match n with
  | NInt z => NInt (- z)
  | NFloat f => NFloat (- f)
  end.

Definition decimal_literal (s : string) : option number :=
  match s with
  | EmptyString => None
  | String c s' =>
      if negb (has_digit s) then None
      else if Ascii.eqb c "-"%char then negate <$> unsigned s' 0
      else if Ascii.eqb c "+"%char then unsigned s' 0
      else unsigned s 0
  end.

(** A sort that keeps rows of equal totals in their order and puts the
    rows whose total is NaN last. *)
Definition nan_total (r : string * number) : bool :=
  match r.2 with
  | NFloat f => Np.isnan f
  | NInt _ => false
  end.

Definition insertion_sort (t : tabela) : tabela :=
  sort_by (λ y x, Np.ltb x.2 y.2) (filter (λ r, nan_total r = false) t)
  ++ filter (λ r, nan_total r = true) t.

End Pd.


(** ** The script (app.py, lines 82-143) *)

Section Script.

Variable upstream : request → reply.
Variable str_to_number : string → option number.
Variable sort_values : tabela → tabela.

(** One run of the script: [nome_deputado] is the content of the text
    field, [pressed] the state of the button.  The result is [Raise e]
    when an exception leaves the script, and [None] when the fuel of the
    fetcher runs out or the model of the aggregation gives no answer.  The
    spinners leave nothing on the page and are not recorded. *)
Definition script (fuel : nat) (nome_deputado : string) (pressed : bool) (w : world)
  : option (res unit * world) :=
  if negb pressed then Some (Ok (), w)
  else if String.eqb nome_deputado "" then Some (Ok (), show warning_digite_um_nome w)
  else
    match buscar_deputado_id upstream nome_deputado w with
    | (Raise e, w1) => Some (Raise e, w1)
    | (Ok None, w1) => Some (Ok (), show error_nenhum_deputado w1)
    | (Ok (Some info_deputado), w1) =>
        let w2 := show (success_deputado_encontrado (Info.nome info_deputado)
                          (Info.partido info_deputado) (Info.uf info_deputado)) w1 in
        match buscar_todas_despesas upstream fuel (Info.id info_deputado) w2 with
        | None => None
        | Some (Raise e, w3) => Some (Raise e, w3)
        | Some (Ok [], w3) => Some (Ok (), show info_sem_despesas w3)
        | Some (Ok lista_despesas, w3) =>
            let w4 := show (info_total_registros (length lista_despesas)) w3 in
            match Pd.despesas_agrupadas str_to_number sort_values lista_despesas with
            | None => None
            | Some (Raise e) => Some (Raise e, w4)
            | Some (Ok t) =>
                Some (Ok (), show (dataframe t)
                               (show subheader_dados_agrupados
                                  (show (plotly_chart t) w4)))
            end
        end
    end.

End Script.

(** * Properties *)

(** ** Vocabulary of the statements *)

(** What the program treats as a failed request: [requests.get] raises,
    the status is 4xx or 5xx, or the body is not a JSON document. *)
Definition transport_failure (rp : reply) : option request_exception :=
  match rp with
  | Fails e => Some e
  | Responds r =>
      if (400 <=? status_code r) && (status_code r <? 600)
      then Some (HTTPError (status_code r))
      else match body r with
           | Some _ => None
           | None => Some JSONDecodeError
           end
  end.

(** A page of the expense listing as the service documents it: the
    records, and the links as pairs of relation and address. *)
Record pagina_t : Type := { dados : list json; links : list (string * string) }.

Definition link_json (l : string * string) : json :=
  JObj [("rel", JStr l.1); ("href", JStr l.2)].

Definition pagina_json (p : pagina_t) : json :=
  JObj [("dados", JArr (dados p)); ("links", JArr (link_json <$> links p))].

Definition pagina_reply (p : pagina_t) : reply :=
  Responds {| status_code := 200; body := Some (pagina_json p) |}.

(** The page carries a link with relation ["next"]. *)
Definition next_link (p : pagina_t) : bool :=
  existsb (λ l, String.eqb "next" l.1) (links p).

(** The page is followed by another request: it has records and a
    ["next"] link. *)
Definition continues (p : pagina_t) : Prop :=
  dados p ≠ [] ∧ next_link p = true.

(** Requests for the pages [from], ..., [from + n - 1]. *)
Definition page_requests (deputado_id : json) (from n : nat) : list request :=
  (λ i, GET_despesas deputado_id i 100) <$> seq from n.

(** The records of the pages [from], ..., [from + n - 1], in order. *)
Definition records_of (pages : nat → pagina_t) (from n : nat) : list json :=
  concat ((λ i, dados (pages i)) <$> seq from n).

(** The world after the requests for [n] pages starting at [from]. *)
Definition after_requests (deputado_id : json) (from n : nat) (w : world) : world :=
  {| sent := sent w ++ page_requests deputado_id from n; page := page w |}.

(** No row comes before a row with a greater total. *)
Definition descending (a b : string * number) : Prop := Np.ltb a.2 b.2 = false.

(** [sort_values] does its work on the table [g]: it returns the rows of
    [g], none of them before a row of greater total. *)
Definition sorts (sort_values : tabela → tabela) (g : tabela) : Prop :=
  sort_values g ≡ₚ g ∧ StronglySorted descending (sort_values g).

Definition has_column (k : string) (df : Pd.frame) : bool :=
  existsb (λ row, bool_decide (is_Some (Py.dict_get k row))) df.

(** The sum of a list of integers. *)
Definition soma (zs : list Z) : Z := foldr Z.add 0 zs.

(** The integer a number is, when the number is an integer. *)
Definition inteiro (n : number) : option Z :=
  match n with
  | NInt z => Some z
  | NFloat _ => None
  end.

(** The float64 a number is in a float64 column. *)
Definition flutuante (n : number) : float :=
  match n with
  | NInt z => Np.float_of_int64 z
  | NFloat f => f
  end.

(** The sum of a list of float64 as a float64 column has it: the numbers
    are added in order with a compensation for the rounding of each
    addition, and a NaN is passed over. *)
Fixpoint compensated_sum (sumx compensation : float) (fs : list float) : float :=
  match fs with
  | [] => sumx
  | f :: fs' =>
      if Np.isnan f then compensated_sum sumx compensation fs'
      else
        let y := (f - compensation)%float in
        let t := (sumx + y)%float in
        let c := (t - sumx - y)%float in
        compensated_sum t (if Np.isnan c then 0%float else c) fs'
  end.

Definition float64_sum (fs : list float) : float := compensated_sum 0 0 fs.

(** The number a net amount stands for, as the data model has it: an
    integer within int64, a float, or the numeral that a non-empty string
    holds. *)
Definition valor (str_to_number : string → option number) (v : json) : option number :=
  match v with
  | JInt z => if Np.int64 z then Some (NInt z) else None
  | JFloat f => Some (NFloat f)
  | JStr s =>
      if String.eqb s "" then None
      else match str_to_number s with
           | Some (NInt z) => if Np.int64 z then Some (NInt z) else None
           | Some (NFloat f) => Some (NFloat f)
           | None => None
           end
  | _ => None
  end.

(** The same, a missing amount (null, absent, the empty string) being
    NaN. *)
Definition valor_ou_nan (str_to_number : string → option number) (v : json)
  : option number :=
  match v with
  | JNull => Some (NFloat nan)
  | JStr s => if String.eqb s "" then Some (NFloat nan) else valor str_to_number v
  | _ => valor str_to_number v
  end.

(** The category of a record: a string, or missing. *)
Definition categoria (v : json) : option (option string) :=
  match v with
  | JStr s => Some (Some s)
  | JNull => Some None
  | _ => None
  end.

(** What one record gives the aggregation: its category and its amount,
    each possibly missing. *)
Definition reads (str_to_number : string → option number)
    (members : list (string * json)) (row : option string * number) : Prop :=
  categoria (default JNull (Py.dict_get "tipoDespesa" members)) = Some row.1
  ∧ valor_ou_nan str_to_number (default JNull (Py.dict_get "valorLiquido" members))
    = Some row.2.

(** The amounts of the rows of category [c], in the order of the rows. *)
Definition amounts_of (c : string) (rows : list (option string * number)) : list number :=
  (filter (λ r, r.1 = Some c) rows).*2.

(** The total of category [c] in the arithmetic of the column: for a
    column of integers their sum wrapped to int64, otherwise the float64
    sum of the amounts. *)
Definition column_total (rows : list (option string * number)) (c : string) : number :=
  match mapM inteiro rows.*2 with
  | Some _ => NInt (Np.wrap64 (soma (omap inteiro (amounts_of c rows))))
  | None => NFloat (float64_sum (flutuante <$> amounts_of c rows))
  end.

(** Rows without gaps. *)
Definition typed (rows : list (string * number)) : list (option string * number) :=
  (λ r, (Some r.1, r.2)) <$> rows.

(** [x] is an expense record of category [r.1] whose net amount is the
    number [r.2]. *)
Definition represents (str_to_number : string → option number)
    (x : json) (r : string * number) : Prop :=
  ∃ members v,
    x = JObj members
    ∧ Py.dict_get "tipoDespesa" members = Some (JStr r.1)
    ∧ Py.dict_get "valorLiquido" members = Some v
    ∧ valor str_to_number v = Some r.2.

(** An expense record as the service sends it. *)
Definition despesa (tipoDespesa valorLiquido : string) : json :=
  JObj [("tipoDespesa", JStr tipoDespesa); ("valorLiquido", JStr valorLiquido)].

Definition scenario_C : list json :=
  [despesa "Combustível" "150.00"; despesa "Combustível" "50.00";
   despesa "Passagem Aérea" "800.00"].

Definition despesa_int (tipoDespesa : string) (valorLiquido : Z) : json :=
  JObj [("tipoDespesa", JStr tipoDespesa); ("valorLiquido", JInt valorLiquido)].

Definition despesa_float (tipoDespesa : string) (valorLiquido : float) : json :=
  JObj [("tipoDespesa", JStr tipoDespesa); ("valorLiquido", JFloat valorLiquido)].

(** Two integer amounts whose sum is 2^63. *)
Definition overflow_2 : list json :=
  [despesa_int "Combustível" (2 ^ 62); despesa_int "Combustível" (2 ^ 62)].

(** The largest int64 and 1. *)
Definition overflow_max : list json :=
  [despesa_int "Combustível" (2 ^ 63 - 1); despesa_int "Combustível" 1].

(** Three float amounts in two orders. *)
Definition order_1 : list json :=
  [despesa_float "Combustível" 1e16; despesa_float "Combustível" 1;
   despesa_float "Combustível" (-1e16)].

Definition order_2 : list json :=
  [despesa_float "Combustível" 1e16; despesa_float "Combustível" (-1e16);
   despesa_float "Combustível" 1].

(** ** Scenarios *)

Definition world0 : world := {| sent := []; page := [] |}.

Definition ok (dados : json) : reply :=
  Responds {| status_code := 200; body := Some dados |}.

(** Scenario A: the search finds one deputy. *)
Definition maria : json :=
  JObj [("id", JInt 204379); ("nome", JStr "Maria do Rosário");
        ("siglaPartido", JStr "PT"); ("siglaUf", JStr "RS")].

(** An upstream that answers the search with [resultados] and the pages
    of expenses with [despesas]. *)
Definition upstream_of (resultados : list json) (despesas : nat → reply) : request → reply :=
  λ rq,
    match rq with
    | GET_deputados _ => ok (JObj [("dados", JArr resultados)])
    | GET_despesas _ pagina _ => despesas pagina
    end.

(** An upstream whose every request times out. *)
Definition upstream_timeout : request → reply := λ _, Fails (Timeout "timed out").

Definition self_link : string * string := ("self", "https://example.org/self").
Definition next_link_B : string * string := ("next", "https://example.org/next").

(** Scenario B: 100 records and a ["next"] link, then 37 records and no
    ["next"] link. *)
Definition pages_B (pagina : nat) : pagina_t :=
  match pagina with
  | 1%nat => {| dados := replicate 100 (despesa "Combustível" "1.00");
                links := [self_link; next_link_B] |}
  | _ => {| dados := replicate 37 (despesa "Combustível" "1.00");
            links := [self_link] |}
  end.

Definition upstream_B : request → reply :=
  upstream_of [maria] (λ pagina, pagina_reply (pages_B pagina)).

(** Scenario D: the request for page 3 times out. *)
Definition pages_D (pagina : nat) : pagina_t :=
  {| dados := [despesa "Combustível" "1.00"; despesa "Telefonia" "2.50"];
     links := [self_link; next_link_B] |}.

Definition upstream_D : request → reply :=
  upstream_of [maria]
    (λ pagina, match pagina with
               | 3%nat => Fails (Timeout "timed out")
               | _ => pagina_reply (pages_D pagina)
               end).

(** The deputy has no expenses. *)
Definition upstream_empty : request → reply :=
  upstream_of [maria] (λ _, pagina_reply {| dados := []; links := [self_link] |}).

(** The search finds nobody. *)
Definition upstream_nobody : request → reply :=
  upstream_of [] (λ _, pagina_reply {| dados := []; links := [self_link] |}).

(** The first page has records but no [links] member. *)
Definition upstream_no_links : request → reply :=
  upstream_of [maria]
    (λ _, ok (JObj [("dados", JArr [despesa "Combustível" "1.00"])])).

(** A record whose net amount is not a number. *)
Definition frame_abc : Pd.frame :=
  [[("tipoDespesa", JStr "Combustível"); ("valorLiquido", JStr "abc")]].

Definition upstream_abc : request → reply :=
  upstream_of [maria]
    (λ _, pagina_reply {| dados := JObj <$> frame_abc; links := [self_link] |}).

(** ** Vocabulary and scenarios of the further properties *)

(** The fields the resolver reads in the first result, in the order it
    reads them. *)
Definition campos : list string := ["id"; "nome"; "siglaPartido"; "siglaUf"].

Definition upstream_sem_dados : request → reply :=
  λ _, ok (JObj [("erro", JStr "indisponível")]).

Definition upstream_sem_partido : request → reply :=
  upstream_of [JObj [("id", JInt 204379); ("nome", JStr "Maria do Rosário");
                     ("siglaUf", JStr "RS")]]
    (λ _, Fails (Timeout "timed out")).

Definition upstream_endless : request → reply :=
  upstream_of [maria] (λ pagina, pagina_reply (pages_D pagina)).

Definition upstream_null_links : request → reply :=
  upstream_of [maria]
    (λ _, ok (JObj [("dados", JArr [despesa "Combustível" "1.00"]); ("links", JNull)])).

(** The search for [nome] is answered successfully with a list whose
    first element carries the four fields of [info]. *)
Definition finds (upstream : request → reply) (nome : string) (info : Info.t) : Prop :=
  ∃ r dados primeiro resto,
    upstream (GET_deputados nome) = Responds r
    ∧ ¬ (400 ≤ status_code r < 600)
    ∧ body r = Some dados
    ∧ Py.getitem dados "dados" = Ok (JArr (primeiro :: resto))
    ∧ Py.getitem primeiro "id" = Ok (Info.id info)
    ∧ Py.getitem primeiro "nome" = Ok (Info.nome info)
    ∧ Py.getitem primeiro "siglaPartido" = Ok (Info.partido info)
    ∧ Py.getitem primeiro "siglaUf" = Ok (Info.uf info).

(** The confirmation the script shows for the deputy found. *)
Definition success_of (info : Info.t) : element :=
  success_deputado_encontrado (Info.nome info) (Info.partido info) (Info.uf info).

Definition info_maria : Info.t :=
  {| Info.id := JInt 204379; Info.nome := JStr "Maria do Rosário";
     Info.partido := JStr "PT"; Info.uf := JStr "RS" |}.

(** The search finds the deputy; every request for expenses is refused. *)
Definition upstream_refused : request → reply :=
  upstream_of [maria] (λ _, Fails (ConnectionError "refused")).

(** The two columns the aggregation reads agree in the two records. *)
Definition same_columns (members members' : list (string * json)) : Prop :=
  Py.dict_get "tipoDespesa" members = Py.dict_get "tipoDespesa" members'
  ∧ Py.dict_get "valorLiquido" members = Py.dict_get "valorLiquido" members'.

(** Records with a missing category and a missing amount. *)
Definition frame_gaps : Pd.frame :=
  [[("tipoDespesa", JStr "Combustível"); ("valorLiquido", JStr "10")];
   [("tipoDespesa", JNull); ("valorLiquido", JStr "5")];
   [("valorLiquido", JFloat 7)];
   [("tipoDespesa", JStr "Telefonia"); ("valorLiquido", JNull)]].

(** ** Resolver *)

Ltac run_M :=
  unfold buscar_deputado_id, try_except, try_block, mbind, M_bind, mret, M_ret,
    requests_get, lift, raise_for_status, response_json, st_element in *; simpl.

Lemma status_ok_false (r : Response) :
  ¬ (400 ≤ status_code r < 600) →
  (400 <=? status_code r) && (status_code r <? 600) = false.
Proof.
  intros Hst. destruct (_ && _) eqn:E; [|done].
  apply andb_true_iff in E as [?%Z.leb_le ?%Z.ltb_lt]. lia.
Qed.

(** C4. For every successful search response whose [dados] member is a
    list: when the list is empty the resolver returns [None] and writes
    no error; when it is not, the resolver returns the record made of the
    [id], [nome], [siglaPartido] and [siglaUf] members of the first
    element, whatever follows it. *)
Theorem resolver_postcondition
    (upstream : request → reply) (nome : string) (w : world)
    (r : Response) (dados : json) (resultados : list json) :
  upstream (GET_deputados nome) = Responds r →
  ¬ (400 ≤ status_code r < 600) →
  body r = Some dados →
  Py.getitem dados "dados" = Ok (JArr resultados) →
  match resultados with
  | [] =>
      buscar_deputado_id upstream nome w = (Ok None, send (GET_deputados nome) w)
  | primeiro :: _ =>
      ∀ i n p u,
        Py.getitem primeiro "id" = Ok i →
        Py.getitem primeiro "nome" = Ok n →
        Py.getitem primeiro "siglaPartido" = Ok p →
        Py.getitem primeiro "siglaUf" = Ok u →
        buscar_deputado_id upstream nome w
        = (Ok (Some {| Info.id := i; Info.nome := n; Info.partido := p; Info.uf := u |}),
           send (GET_deputados nome) w)
  end.
Proof.
  intros Hr Hst%status_ok_false Hb Hd.
  destruct resultados as [|primeiro rest].
  - run_M. by rewrite Hr, Hst, Hb, Hd.
  - intros i n p u Hi Hn Hp Hu. run_M.
    by rewrite Hr, Hst, Hb, Hd; simpl; rewrite Hi, Hn, Hp, Hu.
Qed.

(** C5, as the program has it.  For every transport failure of the search
    request the resolver writes one error element carrying the cause and
    returns [None]: the value it also returns for an empty result. *)
Theorem resolver_transport_failure
    (upstream : request → reply) (nome : string) (w : world) (e : request_exception) :
  transport_failure (upstream (GET_deputados nome)) = Some e →
  buscar_deputado_id upstream nome w
  = (Ok None, show (error_buscar_deputado e) (send (GET_deputados nome) w)).
Proof.
  unfold transport_failure. run_M.
  destruct (upstream _) as [e'|r]; [by intros [= ->]|].
  destruct ((400 <=? status_code r) && (status_code r <? 600)); [by intros [= <-]|].
  destruct (body r); [done|by intros [= <-]].
Qed.

(** ** Paginated fetcher *)

Lemma links_comprehension_links (ls : list (string * string)) (acc : list (json * json)) :
  ∃ d, links_comprehension (link_json <$> ls) acc = Ok d
       ∧ has_next d = existsb (λ l, String.eqb "next" l.1) ls || has_next acc.
Proof.
  revert acc. induction ls as [|l ls IH]; intros acc.
  - by exists acc.
  - destruct (IH ((JStr l.1, JStr l.2) :: acc)) as (d & Hd & Hn).
    exists d. split; [exact Hd|].
    rewrite Hn. unfold has_next. cbn [existsb fst Py.eq_str].
    by destruct (String.eqb "next" l.1), (existsb _ ls).
Qed.

Lemma process_page_pagina (p : pagina_t) (todas_despesas : list json) (pagina : nat) :
  process_page (pagina_json p) todas_despesas pagina
  = Ok (match dados p with
        | [] => (Break, todas_despesas, pagina)
        | _ => if next_link p then (Continue, todas_despesas ++ dados p, S pagina)
               else (Break, todas_despesas ++ dados p, pagina)
        end).
Proof.
  unfold process_page, pagina_json. simpl.
  destruct (dados p) as [|x xs] eqn:E; [done|]. simpl.
  destruct (links_comprehension_links (links p) []) as (d & Hd & Hn).
  rewrite Hd. simpl. rewrite Hn. unfold next_link. simpl.
  rewrite orb_false_r. by destruct (existsb _ (links p)).
Qed.

Section Fetcher_facts.

Variable upstream : request → reply.
Variable deputado_id : json.

Lemma try_block_pagina (p : pagina_t) (todas_despesas : list json) (pagina : nat) (w : world) :
  upstream (GET_despesas deputado_id pagina 100) = pagina_reply p →
  try_block upstream deputado_id todas_despesas pagina w
  = (process_page (pagina_json p) todas_despesas pagina,
     send (GET_despesas deputado_id pagina 100) w).
Proof. intros Hr. run_M. by rewrite Hr. Qed.

Lemma try_block_transport_failure (todas_despesas : list json) (pagina : nat) (w : world) e :
  transport_failure (upstream (GET_despesas deputado_id pagina 100)) = Some e →
  try_block upstream deputado_id todas_despesas pagina w
  = (Raise (RequestException e), send (GET_despesas deputado_id pagina 100) w).
Proof.
  unfold transport_failure. run_M.
  destruct (upstream _) as [e'|r]; [by intros [= ->]|].
  destruct ((400 <=? status_code r) && (status_code r <? 600)); [by intros [= <-]|].
  destruct (body r); [done|by intros [= <-]].
Qed.

(** [n] passes over pages that continue: the loop is back at its head
    with the records appended and the counter advanced. *)
Lemma while_True_continues (pages : nat → pagina_t) (n fuel from : nat)
    (todas_despesas : list json) (w : world) :
  (∀ i, (from ≤ i < from + n)%nat →
        upstream (GET_despesas deputado_id i 100) = pagina_reply (pages i)
        ∧ continues (pages i)) →
  while_True upstream (n + fuel) deputado_id todas_despesas from w
  = while_True upstream fuel deputado_id
      (todas_despesas ++ records_of pages from n) (from + n)
      (after_requests deputado_id from n w).
Proof.
  revert from todas_despesas w. induction n as [|n IH]; intros from acc w Hp.
  - unfold records_of, after_requests, page_requests. simpl.
    rewrite !app_nil_r, Nat.add_0_r. by destruct w.
  - destruct (Hp from ltac:(lia)) as (Hr & Hne & Hnx).
    simpl. rewrite (try_block_pagina _ _ _ _ Hr), process_page_pagina, Hnx.
    destruct (dados (pages from)) as [|x xs] eqn:E; [done|].
    rewrite IH by (intros i Hi; apply Hp; lia).
    unfold records_of, after_requests, page_requests. simpl.
    rewrite E, <- !app_assoc, Nat.add_succ_r. done.
Qed.

End Fetcher_facts.

Lemma length_records_of (pages : nat → pagina_t) (from n : nat) :
  length (records_of pages from n)
  = sum_list ((λ i, length (dados (pages i))) <$> seq from n).
Proof.
  unfold records_of. revert from. induction n as [|n IH]; intros from; [done|].
  simpl. by rewrite length_app, IH.
Qed.

Lemma records_of_S (pages : nat → pagina_t) (from n : nat) :
  records_of pages from (S n) = records_of pages from n ++ dados (pages (from + n)%nat).
Proof.
  unfold records_of. rewrite seq_S, fmap_app, concat_app. simpl. by rewrite app_nil_r.
Qed.

Lemma page_requests_S (deputado_id : json) (from n : nat) :
  page_requests deputado_id from (S n)
  = page_requests deputado_id from n ++ [GET_despesas deputado_id (from + n) 100].
Proof. unfold page_requests. by rewrite seq_S, fmap_app. Qed.

Section Fetcher_runs.

Variable upstream : request → reply.
Variable deputado_id : json.

(** The pass over a page without records or without a ["next"] link
    leaves the loop. *)
Lemma while_True_last (p : pagina_t) (fuel pagina : nat)
    (todas_despesas : list json) (w : world) :
  upstream (GET_despesas deputado_id pagina 100) = pagina_reply p →
  dados p = [] ∨ next_link p = false →
  while_True upstream (S fuel) deputado_id todas_despesas pagina w
  = Some (Ok (todas_despesas ++ dados p), send (GET_despesas deputado_id pagina 100) w).
Proof.
  intros Hr Hlast. cbn [while_True].
  rewrite (try_block_pagina _ _ _ _ _ _ Hr), process_page_pagina.
  destruct Hlast as [-> | ->]; [by rewrite app_nil_r|].
  by destruct (dados p); [rewrite app_nil_r|].
Qed.

(** The pass whose request fails leaves the loop through the handler. *)
Lemma while_True_failure (e : request_exception) (fuel pagina : nat)
    (todas_despesas : list json) (w : world) :
  transport_failure (upstream (GET_despesas deputado_id pagina 100)) = Some e →
  while_True upstream (S fuel) deputado_id todas_despesas pagina w
  = Some (Ok todas_despesas,
          show (error_buscar_despesas pagina e)
               (send (GET_despesas deputado_id pagina 100) w)).
Proof.
  intros Hfail. cbn [while_True].
  by rewrite (try_block_transport_failure _ _ _ _ _ _ Hfail).
Qed.

(** The run up to the head of the pass for page [S m]. *)
Lemma buscar_todas_despesas_prefix (pages : nat → pagina_t) (m fuel : nat) (w : world) :
  (∀ i, (1 ≤ i < S m)%nat →
        upstream (GET_despesas deputado_id i 100) = pagina_reply (pages i)
        ∧ continues (pages i)) →
  buscar_todas_despesas upstream (m + fuel) deputado_id w
  = while_True upstream fuel deputado_id (records_of pages 1 m) (S m)
      (after_requests deputado_id 1 m w).
Proof.
  intros Hup. unfold buscar_todas_despesas.
  by rewrite (while_True_continues upstream deputado_id pages m)
    by (intros i Hi; apply Hup; lia).
Qed.

Lemma buscar_todas_despesas_last (pages : nat → pagina_t) (k fuel : nat) (w : world) :
  (1 ≤ k ≤ fuel)%nat →
  (∀ i, (1 ≤ i ≤ k)%nat →
        upstream (GET_despesas deputado_id i 100) = pagina_reply (pages i)) →
  (∀ i, (1 ≤ i < k)%nat → continues (pages i)) →
  dados (pages k) = [] ∨ next_link (pages k) = false →
  buscar_todas_despesas upstream fuel deputado_id w
  = Some (Ok (records_of pages 1 k),
          {| sent := sent w ++ page_requests deputado_id 1 k; page := page w |}).
Proof.
  intros Hk Hup Hcont Hlast.
  destruct k as [|m]; [lia|].
  replace fuel with (m + S (fuel - S m))%nat by lia.
  rewrite (buscar_todas_despesas_prefix pages)
    by (intros i Hi; split; [apply Hup|apply Hcont]; lia).
  rewrite (while_True_last (pages (S m))) by (done || apply Hup; lia).
  rewrite records_of_S, page_requests_S. unfold after_requests, send. simpl.
  by rewrite <- app_assoc.
Qed.

Lemma buscar_todas_despesas_failure (pages : nat → pagina_t) (N fuel : nat)
    (w : world) (e : request_exception) :
  (1 ≤ N ≤ fuel)%nat →
  (∀ i, (1 ≤ i < N)%nat →
        upstream (GET_despesas deputado_id i 100) = pagina_reply (pages i)
        ∧ continues (pages i)) →
  transport_failure (upstream (GET_despesas deputado_id N 100)) = Some e →
  buscar_todas_despesas upstream fuel deputado_id w
  = Some (Ok (records_of pages 1 (N - 1)),
          {| sent := sent w ++ page_requests deputado_id 1 N;
             page := page w ++ [error_buscar_despesas N e] |}).
Proof.
  intros HN Hup Hfail.
  destruct N as [|m]; [lia|].
  replace fuel with (m + S (fuel - S m))%nat by lia.
  rewrite (buscar_todas_despesas_prefix pages) by done.
  rewrite (while_True_failure e) by done.
  rewrite page_requests_S, Nat.sub_succ, Nat.sub_0_r.
  unfold after_requests, send, show. simpl. by rewrite <- app_assoc.
Qed.

End Fetcher_runs.

(** C1. Let page [k] be the first page that has no records or no link
    with relation ["next"].  With fuel for [k] passes the fetcher sends
    exactly the requests for pages 1 to [k], in that order, writes
    nothing to the page and returns the records of pages 1 to [k] in the
    order received; their number is the sum of the page sizes. *)
Theorem fetcher_postcondition
    (upstream : request → reply) (deputado_id : json) (pages : nat → pagina_t)
    (k fuel : nat) (w : world) :
  (1 ≤ k ≤ fuel)%nat →
  (∀ i, (1 ≤ i ≤ k)%nat →
        upstream (GET_despesas deputado_id i 100) = pagina_reply (pages i)) →
  (∀ i, (1 ≤ i < k)%nat → continues (pages i)) →
  dados (pages k) = [] ∨ next_link (pages k) = false →
  buscar_todas_despesas upstream fuel deputado_id w
  = Some (Ok (records_of pages 1 k),
          {| sent := sent w ++ page_requests deputado_id 1 k; page := page w |})
  ∧ length (page_requests deputado_id 1 k) = k
  ∧ length (records_of pages 1 k)
    = sum_list ((λ i, length (dados (pages i))) <$> seq 1 k).
Proof.
  intros Hk Hup Hcont Hlast. split; [by apply buscar_todas_despesas_last|].
  split; [|apply length_records_of].
  unfold page_requests. by rewrite length_fmap, length_seq.
Qed.

(** C6. When the pages before page [N] continue and the request for page
    [N] fails in transport, the fetcher writes one error element that
    names page [N] and carries the cause, and returns the records of
    pages 1 to [N - 1]. *)
Theorem fetcher_partial_result
    (upstream : request → reply) (deputado_id : json) (pages : nat → pagina_t)
    (N fuel : nat) (w : world) (e : request_exception) :
  (1 ≤ N ≤ fuel)%nat →
  (∀ i, (1 ≤ i < N)%nat →
        upstream (GET_despesas deputado_id i 100) = pagina_reply (pages i)
        ∧ continues (pages i)) →
  transport_failure (upstream (GET_despesas deputado_id N 100)) = Some e →
  buscar_todas_despesas upstream fuel deputado_id w
  = Some (Ok (records_of pages 1 (N - 1)),
          {| sent := sent w ++ page_requests deputado_id 1 N;
             page := page w ++ [error_buscar_despesas N e] |}).
Proof. apply buscar_todas_despesas_failure. Qed.

(** C9. An upstream without records and a failed request for page 1
    both make the fetcher return the empty list; they differ in what the
    fetcher reports: nothing in the first case, one error element for
    page 1 in the second. *)
Theorem fetcher_empty_vs_failed
    (up_empty up_failed : request → reply) (deputado_id : json)
    (p : pagina_t) (e : request_exception) (fuel : nat) (w : world) :
  up_empty (GET_despesas deputado_id 1 100) = pagina_reply p →
  dados p = [] →
  transport_failure (up_failed (GET_despesas deputado_id 1 100)) = Some e →
  ∃ w_empty w_failed,
    buscar_todas_despesas up_empty (S fuel) deputado_id w = Some (Ok [], w_empty)
    ∧ buscar_todas_despesas up_failed (S fuel) deputado_id w = Some (Ok [], w_failed)
    ∧ page w_empty = page w
    ∧ page w_failed = page w ++ [error_buscar_despesas 1 e]
    ∧ page w_empty ≠ page w_failed.
Proof.
  intros Hp Hd Hfail. unfold buscar_todas_despesas.
  rewrite (while_True_last up_empty deputado_id p) by (done || by left).
  rewrite (while_True_failure up_failed deputado_id e) by done.
  rewrite Hd. eexists _, _. repeat split. simpl.
  intros Heq. apply (f_equal length) in Heq. rewrite length_app in Heq. simpl in Heq. lia.
Qed.

Lemma links_comprehension_missing_key
    (good : list (string * string)) (link : list (string * json)) (rest : list json)
    (key : string) (acc : list (json * json)) :
  key = "rel" ∧ Py.dict_get "rel" link = None
  ∨ key = "href" ∧ is_Some (Py.dict_get "rel" link) ∧ Py.dict_get "href" link = None →
  links_comprehension ((link_json <$> good) ++ JObj link :: rest) acc
  = Raise (KeyError (JStr key)).
Proof.
  intros Hkey. revert acc. induction good as [|l good IH]; intros acc.
  - simpl. destruct Hkey as [[-> Hrel] | (-> & [rel Hrel] & Hhref)].
    + by rewrite Hrel.
    + by rewrite Hrel, Hhref.
  - apply IH.
Qed.

(** C10. Let the pages before page [N] continue, and let the response
    for page [N] be successful with a non-empty [dados] list, but without
    the [links] member, or with a link object that lacks [rel] or [href]
    after well-formed ones.  Then the [KeyError] for the missing key
    leaves [buscar_todas_despesas]: no list is returned and the handler
    writes nothing to the page. *)
Theorem fetcher_key_error_escapes
    (upstream : request → reply) (deputado_id : json) (pages : nat → pagina_t)
    (N fuel : nat) (w : world) (r : Response) (members : list (string * json))
    (registro : json) (registros : list json) (key : string) :
  (1 ≤ N ≤ fuel)%nat →
  (∀ i, (1 ≤ i < N)%nat →
        upstream (GET_despesas deputado_id i 100) = pagina_reply (pages i)
        ∧ continues (pages i)) →
  upstream (GET_despesas deputado_id N 100) = Responds r →
  ¬ (400 ≤ status_code r < 600) →
  body r = Some (JObj members) →
  Py.dict_get "dados" members = Some (JArr (registro :: registros)) →
  key = "links" ∧ Py.dict_get "links" members = None
  ∨ (∃ good link rest,
        Py.dict_get "links" members
        = Some (JArr ((link_json <$> good) ++ JObj link :: rest))
        ∧ (key = "rel" ∧ Py.dict_get "rel" link = None
           ∨ key = "href" ∧ is_Some (Py.dict_get "rel" link)
                           ∧ Py.dict_get "href" link = None)) →
  buscar_todas_despesas upstream fuel deputado_id w
  = Some (Raise (KeyError (JStr key)),
          {| sent := sent w ++ page_requests deputado_id 1 N; page := page w |}).
Proof.
  intros HN Hup Hr Hst%status_ok_false Hb Hd Hlinks.
  destruct N as [|m]; [lia|].
  replace fuel with (m + S (fuel - S m))%nat by lia.
  rewrite (buscar_todas_despesas_prefix upstream deputado_id pages) by done.
  rewrite page_requests_S. cbn [while_True]. run_M.
  rewrite Hr, Hst, Hb. unfold process_page. simpl. rewrite Hd. simpl.
  destruct Hlinks as [[-> Hl] | (good & link & rest & Hl & Hkey)]; rewrite Hl; simpl.
  - unfold after_requests, send. simpl. by rewrite <- app_assoc.
  - rewrite (links_comprehension_missing_key good link rest key [] Hkey).
    unfold after_requests, send. simpl. by rewrite <- app_assoc.
Qed.

(** ** Aggregator *)

(** *** Sorting *)

Lemma insert_by_Permutation {A} (before : A → A → bool) (x : A) (l : list A) :
  insert_by before x l ≡ₚ x :: l.
Proof.
  induction l as [|y l IH]; [done|]. simpl.
  destruct (before y x); [|done]. rewrite IH. apply perm_swap.
Qed.

Lemma sort_by_Permutation {A} (before : A → A → bool) (l : list A) :
  sort_by before l ≡ₚ l.
Proof.
  induction l as [|x l IH]; [done|]. unfold sort_by in *. simpl.
  by rewrite insert_by_Permutation, IH.
Qed.

Lemma insert_by_fmap {A B} (f : A → B) (before : B → B → bool) (x : A) (l : list A) :
  f <$> insert_by (λ y x, before (f y) (f x)) x l = insert_by before (f x) (f <$> l).
Proof.
  induction l as [|y l IH]; [done|]. simpl.
  destruct (before (f y) (f x)); [|done]. by rewrite fmap_cons, IH.
Qed.

Lemma sort_by_fmap {A B} (f : A → B) (before : B → B → bool) (l : list A) :
  f <$> sort_by (λ y x, before (f y) (f x)) l = sort_by before (f <$> l).
Proof.
  induction l as [|x l IH]; [done|]. unfold sort_by in *. simpl.
  by rewrite insert_by_fmap, IH.
Qed.

Lemma insertion_sort_Permutation (t : tabela) : Pd.insertion_sort t ≡ₚ t.
Proof.
  unfold Pd.insertion_sort, tabela in *. rewrite sort_by_Permutation.
  induction t as [|r t IH]; [done|].
  destruct (Pd.nan_total r) eqn:E.
  - rewrite filter_cons_False, (filter_cons_True (λ r, Pd.nan_total r = true)) by
      (done || congruence).
    by rewrite <- Permutation_middle, IH.
  - rewrite filter_cons_True, (filter_cons_False (λ r, Pd.nan_total r = true)) by
      (done || congruence).
    simpl. by rewrite IH.
Qed.

(** *** Reading the frame *)

Lemma res_bind_Ok {A B} (m : res A) (f : A → res B) (b : B) :
  m ≫= f = Ok b ↔ ∃ a, m = Ok a ∧ f a = Ok b.
Proof.
  destruct m as [a|e]; simpl.
  - split; [by exists a|]. by intros (a' & [= <-] & ?).
  - split; [done|]. by intros (a' & ? & _).
Qed.

Lemma mapM_res_Ok {A B} (f : A → res B) (l : list A) (k : list B) :
  mapM f l = Ok k ↔ Forall2 (λ x y, f x = Ok y) l k.
Proof.
  revert k. induction l as [|x l IH]; intros k; simpl.
  - split; [intros [= <-]; constructor|by inversion 1].
  - split.
    + intros (y & Hy & (k' & Hk' & [= <-])%res_bind_Ok)%res_bind_Ok.
      constructor; [done|by apply IH].
    + inversion 1 as [|? y ? k' Hy Hk']; subst.
      apply res_bind_Ok. exists y. split; [done|].
      apply res_bind_Ok. exists k'. split; [by apply IH|done].
Qed.

Lemma DataFrame_Some (lista_despesas : list json) (df : Pd.frame) :
  Pd.DataFrame lista_despesas = Some df ↔ lista_despesas = JObj <$> df.
Proof.
  unfold Pd.DataFrame, Pd.frame in *. rewrite mapM_Some. split.
  - induction 1 as [|x members l df' Hx _ IH]; [done|].
    rewrite fmap_cons. f_equal; [|done].
    destruct x; try done. by injection Hx as ->.
  - intros ->. induction df as [|members df IH]; constructor; done.
Qed.

Lemma column_mapM_Ok {B} (k : string) (f : json → res B) (df : Pd.frame) (ys : list B) :
  Pd.column k df ≫= mapM f = Ok ys
  ↔ has_column k df = true
    ∧ Forall2 (λ row y, f (default JNull (Py.dict_get k row)) = Ok y) df ys.
Proof.
  unfold Pd.column, has_column, Pd.frame in *. destruct (existsb _ df); simpl.
  - rewrite mapM_res_Ok, Forall2_fmap_l. split; [by split|by intros [_ ?]].
  - split; [done|by intros [? _]].
Qed.

Lemma Forall2_zip_both {A B C} (P : A → B → Prop) (R : A → C → Prop)
    (l : list A) (ks : list B) (vs : list C) :
  Forall2 P l ks → Forall2 R l vs →
  Forall2 (λ x kv, P x kv.1 ∧ R x kv.2) l (zip ks vs).
Proof.
  intros HP. revert vs. induction HP as [|x k l ks Hx _ IH]; intros vs HR.
  - inversion HR. constructor.
  - inversion HR as [|? v ? vs' Hv HR']; subst. simpl. constructor; [done|by apply IH].
Qed.

Lemma mapM_id_Some {A} (l : list (option A)) (k : list A) :
  mapM id l = Some k ↔ l = Some <$> k.
Proof.
  rewrite mapM_Some. split.
  - induction 1 as [|x y l k Hx _ IH]; [done|]. simpl in Hx. by subst.
  - intros ->. induction k; constructor; done.
Qed.

Section Aggregator_facts.

Variable str_to_number : string → option number.
Variable sort_values : tabela → tabela.

(** [pd.to_numeric] reads a value as the data model does. *)
Lemma to_numeric1_valor (v : json) (n : number) :
  Pd.to_numeric1 str_to_number v = Ok (Some n) ↔ valor_ou_nan str_to_number v = Some n.
Proof.
  destruct v as [| |z|f|s| |]; simpl; try (split; congruence).
  destruct (String.eqb s ""); [split; congruence|].
  destruct (str_to_number s) as [[z|f]|]; simpl; [|split; congruence..].
  destruct (Np.int64 z); split; congruence.
Qed.

Lemma group_key_categoria (v : json) (k : option string) :
  Pd.group_key v = Ok (Some k) ↔ categoria v = Some k.
Proof. destruct v; simpl; split; congruence. Qed.

(** The grouping succeeds exactly on a list of objects with both columns
    whose rows can all be read; the result is made from the rows read. *)
Lemma agrupar_Ok (lista_despesas : list json) (g : tabela) :
  Pd.agrupar str_to_number lista_despesas = Some (Ok g)
  ↔ ∃ df rows,
      lista_despesas = JObj <$> df
      ∧ has_column "valorLiquido" df = true
      ∧ has_column "tipoDespesa" df = true
      ∧ Forall2 (reads str_to_number) df rows
      ∧ g = Pd.reset_index (Pd.groupby_sum rows.*1 (Pd.Series rows.*2)).
Proof.
  unfold Pd.agrupar.
  change (Pd.to_numeric str_to_number) with (mapM (Pd.to_numeric1 str_to_number)).
  split.
  - destruct (Pd.DataFrame lista_despesas) as [df|] eqn:Hdf; [|done].
    apply DataFrame_Some in Hdf. cbn [mbind option_bind].
    destruct (Pd.column "valorLiquido" df ≫= _) as [vals|] eqn:Hv; [|done].
    destruct (Pd.column "tipoDespesa" df ≫= _) as [keys|] eqn:Hk; [|done].
    apply column_mapM_Ok in Hv as [Hcv Hv]. apply column_mapM_Ok in Hk as [Hck Hk].
    destruct (mapM id vals) as [valores|] eqn:Hvals; [|done].
    destruct (mapM id keys) as [chaves|] eqn:Hkeys; [|done].
    apply mapM_id_Some in Hvals as ->. apply mapM_id_Some in Hkeys as ->.
    cbn [mbind option_bind]. intros [= <-].
    apply Forall2_fmap_r in Hv, Hk.
    exists df, (zip chaves valores).
    assert (length chaves = length valores) as Hlen.
    { by rewrite <- (Forall2_length _ _ _ Hv), <- (Forall2_length _ _ _ Hk). }
    rewrite fst_zip, snd_zip by lia. repeat split; try done.
    eapply Forall2_impl; [exact (Forall2_zip_both _ _ _ _ _ Hk Hv)|].
    intros members row [Hc Hn]. split.
    + by apply group_key_categoria.
    + by apply to_numeric1_valor.
  - intros (df & rows & Hdf%DataFrame_Some & Hcv & Hck & Hrows & ->).
    rewrite Hdf. cbn [mbind option_bind].
    assert (Pd.column "valorLiquido" df ≫= mapM (Pd.to_numeric1 str_to_number)
            = Ok (Some <$> rows.*2)) as ->.
    { apply column_mapM_Ok. split; [done|]. apply Forall2_fmap_r, Forall2_fmap_r.
      eapply Forall2_impl; [exact Hrows|]. intros ?? [_ ?]. by apply to_numeric1_valor. }
    assert (Pd.column "tipoDespesa" df ≫= mapM Pd.group_key = Ok (Some <$> rows.*1)) as ->.
    { apply column_mapM_Ok. split; [done|]. apply Forall2_fmap_r, Forall2_fmap_r.
      eapply Forall2_impl; [exact Hrows|]. intros ?? [? _]. by apply group_key_categoria. }
    by rewrite !(proj2 (mapM_id_Some _ _) eq_refl).
Qed.

Lemma despesas_agrupadas_Ok (lista_despesas : list json) (out : tabela) :
  Pd.despesas_agrupadas str_to_number sort_values lista_despesas = Some (Ok out)
  ↔ ∃ g, Pd.agrupar str_to_number lista_despesas = Some (Ok g) ∧ out = sort_values g.
Proof.
  unfold Pd.despesas_agrupadas.
  destruct (Pd.agrupar str_to_number lista_despesas) as [[g|e]|].
  - split; [intros [= <-]; by exists g|]. by intros (g' & [= <-] & ->).
  - split; [done|]. by intros (g' & ? & _).
  - split; [done|]. by intros (g' & ? & _).
Qed.

End Aggregator_facts.

(** *** The sums of the groups *)

Lemma filter_key_absent {B} (c : string) (rows : list (option string * B)) :
  Some c ∉ rows.*1 → filter (λ r, r.1 = Some c) rows = [].
Proof.
  induction rows as [|r rows IH]; [done|].
  rewrite fmap_cons, not_elem_of_cons. intros [Hne Hc].
  rewrite filter_cons_False by done. by apply IH.
Qed.

(** The sum a key has after the rows: the values of its rows, added in
    order to the sum it had. *)
Lemma fold_group_lookup {A B} (add : A → B → A) (zero : A)
    (rows : list (option string * B)) (sums : gmap string A) (c : string) :
  fold_left (λ sums row,
               match row.1 with
               | Some k => <[k := add (default zero (sums !! k)) row.2]> sums
               | None => sums
               end) rows sums !! c
  = if decide (Some c ∈ rows.*1)
    then Some (fold_left add (filter (λ r, r.1 = Some c) rows).*2
                 (default zero (sums !! c)))
    else sums !! c.
Proof.
  revert sums. induction rows as [|[[k|] v] rows IH]; intros sums.
  - simpl. destruct (decide (Some c ∈ [])) as [Hin|_]; [by apply elem_of_nil in Hin|done].
  - rewrite fmap_cons. cbn [fold_left fst snd]. rewrite IH.
    destruct (decide (k = c)) as [->|Hne].
    + rewrite lookup_insert_eq, filter_cons_True by done.
      rewrite (decide_True (P := Some c ∈ Some c :: rows.*1)) by apply list_elem_of_here.
      destruct (decide (Some c ∈ rows.*1)) as [Hin|Hout]; [done|].
      by rewrite (filter_key_absent c rows Hout).
    + rewrite lookup_insert_ne, filter_cons_False by (simpl; congruence).
      destruct (decide (Some c ∈ rows.*1)) as [Hin|Hout].
      * by rewrite decide_True by (by apply list_elem_of_further).
      * rewrite decide_False; [done|]. rewrite not_elem_of_cons. split; congruence.
  - rewrite fmap_cons. cbn [fold_left fst snd]. rewrite IH.
    rewrite filter_cons_False by done.
    destruct (decide (Some c ∈ rows.*1)) as [Hin|Hout].
    + by rewrite decide_True by (by apply list_elem_of_further).
    + rewrite decide_False; [done|]. rewrite not_elem_of_cons. by split.
Qed.

Lemma group_sum_lookup {A B} (add : A → B → A) (zero : A)
    (rows : list (option string * B)) (c : string) :
  Pd.group_sum add zero rows !! c
  = if decide (Some c ∈ rows.*1)
    then Some (fold_left add (filter (λ r, r.1 = Some c) rows).*2 zero)
    else None.
Proof. unfold Pd.group_sum. by rewrite fold_group_lookup, lookup_empty. Qed.

Lemma wrap64_add (a z : Z) : Np.wrap64 (Np.wrap64 a + z) = Np.wrap64 (a + z).
Proof.
  unfold Np.wrap64. f_equal.
  replace ((a + 2 ^ 63) mod 2 ^ 64 - 2 ^ 63 + z + 2 ^ 63)
    with ((a + 2 ^ 63) mod 2 ^ 64 + z) by lia.
  replace (a + z + 2 ^ 63) with (a + 2 ^ 63 + z) by lia.
  by rewrite Zplus_mod_idemp_l.
Qed.

Lemma wrap64_int64 (z : Z) : Np.int64 z = true → Np.wrap64 z = z.
Proof.
  unfold Np.int64, Np.wrap64. intros [H1 H2]%andb_prop.
  apply Z.leb_le in H1. apply Z.ltb_lt in H2.
  rewrite Z.mod_small; lia.
Qed.

Lemma wrap64_mod (z : Z) : Np.wrap64 z mod 2 ^ 64 = z mod 2 ^ 64.
Proof.
  unfold Np.wrap64.
  rewrite Zminus_mod, Zmod_mod, <- Zminus_mod. f_equal. lia.
Qed.

Lemma fold_add_int (zs : list Z) (a : Z) :
  fold_left Pd.add_int zs (Np.wrap64 a) = Np.wrap64 (a + soma zs).
Proof.
  revert a. induction zs as [|z zs IH]; intros a; simpl.
  - by rewrite Z.add_0_r.
  - unfold Pd.add_int at 2. rewrite wrap64_add, IH. f_equal. lia.
Qed.

Lemma fold_add_float (fs : list float) (sumx compensation : float) :
  (fold_left Pd.add_float fs (sumx, compensation)).1
  = compensated_sum sumx compensation fs.
Proof.
  revert sumx compensation. induction fs as [|f fs IH]; intros sumx compensation; [done|].
  cbn [fold_left compensated_sum]. unfold Pd.add_float at 2. cbn [fst snd].
  destruct (Np.isnan f); apply IH.
Qed.

Lemma amounts_of_fmap {B} (f : number → B) (c : string)
    (rows : list (option string * number)) :
  (filter (λ r, r.1 = Some c) (prod_map id f <$> rows)).*2 = f <$> amounts_of c rows.
Proof.
  unfold amounts_of. induction rows as [|[k v] rows IH]; [done|].
  rewrite fmap_cons. destruct (decide (k = Some c)) as [->|Hne].
  - rewrite !filter_cons_True by done. rewrite !fmap_cons. by rewrite IH.
  - by rewrite !filter_cons_False by done.
Qed.

Lemma zip_fmap_snd {A B C} (f : B → C) (rows : list (A * B)) :
  zip rows.*1 (f <$> rows.*2) = prod_map id f <$> rows.
Proof. induction rows as [|[k v] rows IH]; [done|]. simpl. f_equal. exact IH. Qed.

Lemma mapM_inteiro (ns : list number) (zs : list Z) :
  mapM inteiro ns = Some zs → zs = (λ n, default 0 (inteiro n)) <$> ns.
Proof.
  rewrite mapM_Some. induction 1 as [|n z ns zs Hn _ IH]; [done|].
  rewrite fmap_cons, Hn. simpl. by rewrite IH.
Qed.

Lemma omap_inteiro (ns : list number) :
  Forall (is_Some ∘ inteiro) ns →
  (λ n, default 0 (inteiro n)) <$> ns = omap inteiro ns.
Proof.
  induction 1 as [|n ns [z Hz] _ IH]; [done|].
  rewrite fmap_cons. cbn [omap list_omap]. simpl in Hz. rewrite Hz. simpl. by rewrite IH.
Qed.

Lemma Forall_amounts_of (P : number → Prop) (c : string)
    (rows : list (option string * number)) :
  Forall P rows.*2 → Forall P (amounts_of c rows).
Proof.
  unfold amounts_of. induction rows as [|[k v] rows IH]; [done|].
  rewrite fmap_cons. intros [Hv H]%Forall_cons.
  destruct (decide (k = Some c)) as [->|Hne].
  - rewrite filter_cons_True by done. rewrite fmap_cons. constructor; [done|by apply IH].
  - rewrite filter_cons_False by done. by apply IH.
Qed.

(** The grouped sums of the rows read, by the type of the column. *)
Lemma groupby_sum_rows (rows : list (option string * number)) :
  Pd.groupby_sum rows.*1 (Pd.Series rows.*2)
  = match mapM inteiro rows.*2 with
    | Some _ =>
        NInt <$> Pd.group_sum Pd.add_int 0
                   (prod_map id (λ n, default 0 (inteiro n)) <$> rows)
    | None =>
        (λ acc, NFloat acc.1)
          <$> Pd.group_sum Pd.add_float (0%float, 0%float) (prod_map id flutuante <$> rows)
    end.
Proof.
  unfold Pd.Series. change (λ n, match n with NInt z => Some z | NFloat _ => None end)
    with inteiro.
  change (λ n, match n with NInt z => Np.float_of_int64 z | NFloat f => f end)
    with flutuante.
  destruct (mapM inteiro rows.*2) as [zs|] eqn:Hzs; simpl.
  - by rewrite (mapM_inteiro _ _ Hzs), zip_fmap_snd.
  - by rewrite zip_fmap_snd.
Qed.

(** The total of a category in the grouped sums. *)
Lemma lookup_groupby_sum (rows : list (option string * number)) (c : string) :
  Pd.groupby_sum rows.*1 (Pd.Series rows.*2) !! c
  = if decide (Some c ∈ rows.*1) then Some (column_total rows c) else None.
Proof.
  rewrite groupby_sum_rows. unfold column_total.
  destruct (mapM inteiro rows.*2) as [zs|] eqn:Hzs.
  - rewrite lookup_fmap, group_sum_lookup, amounts_of_fmap.
    replace ((prod_map id (λ n, default 0 (inteiro n)) <$> rows).*1) with rows.*1.
    2:{ rewrite <- list_fmap_compose. by apply list_fmap_ext; intros ? []. }
    destruct (decide (Some c ∈ rows.*1)); [|done]. simpl. do 2 f_equal.
    rewrite omap_inteiro.
    + change 0 with (Np.wrap64 0) at 1. by rewrite fold_add_int.
    + apply Forall_amounts_of. apply mapM_is_Some. by rewrite Hzs.
  - rewrite lookup_fmap, group_sum_lookup, amounts_of_fmap.
    replace ((prod_map id flutuante <$> rows).*1) with rows.*1.
    2:{ rewrite <- list_fmap_compose. by apply list_fmap_ext; intros ? []. }
    destruct (decide (Some c ∈ rows.*1)); [|done]. simpl. do 2 f_equal.
    apply fold_add_float.
Qed.

Lemma elem_of_reset_index (sums : gmap string number) (c : string) (t : number) :
  (c, t) ∈ Pd.reset_index sums ↔ sums !! c = Some t.
Proof.
  unfold Pd.reset_index. by rewrite sort_by_Permutation, elem_of_map_to_list.
Qed.

Lemma reset_index_Permutation (sums : gmap string number) :
  Pd.reset_index sums ≡ₚ map_to_list sums.
Proof. apply sort_by_Permutation. Qed.

(** The rows of the grouped table: one for each category of the rows
    read, with the total of the category. *)
Lemma elem_of_grouped (rows : list (option string * number)) (c : string) (t : number) :
  (c, t) ∈ Pd.reset_index (Pd.groupby_sum rows.*1 (Pd.Series rows.*2))
  ↔ Some c ∈ rows.*1 ∧ t = column_total rows c.
Proof.
  rewrite elem_of_reset_index, lookup_groupby_sum.
  destruct (decide (Some c ∈ rows.*1)) as [Hc|Hc].
  - split; [by intros [= <-]|by intros [_ ->]].
  - split; [done|by intros [? _]].
Qed.

(** *** Order of the records *)

Lemma has_column_Permutation (k : string) (df df' : Pd.frame) :
  df ≡ₚ df' → has_column k df = has_column k df'.
Proof.
  unfold has_column.
  induction 1 as [|row df df' _ IH|r1 r2 df|df1 df2 df3 _ IH1 _ IH2]; simpl.
  - done.
  - by rewrite IH.
  - by destruct (bool_decide _), (bool_decide _).
  - by rewrite IH1.
Qed.

Lemma soma_Permutation (l l' : list Z) : l ≡ₚ l' → soma l = soma l'.
Proof.
  induction 1 as [|x l l' _ IH|x y l|l1 l2 l3 _ IH1 _ IH2]; simpl; lia.
Qed.

Lemma amounts_of_Permutation (c : string) (rows rows' : list (option string * number)) :
  rows ≡ₚ rows' → amounts_of c rows ≡ₚ amounts_of c rows'.
Proof. intros H. unfold amounts_of. by rewrite H. Qed.

(** In a column of integers the total of a category does not depend on
    the order of the rows. *)
Lemma column_total_Permutation (c : string) (rows rows' : list (option string * number)) :
  rows ≡ₚ rows' →
  is_Some (mapM inteiro rows.*2) →
  column_total rows' c = column_total rows c.
Proof.
  intros Hperm Hint. unfold column_total.
  assert (is_Some (mapM inteiro rows'.*2)) as [zs' ->].
  { apply mapM_is_Some. rewrite <- Hperm. by apply mapM_is_Some. }
  destruct Hint as [zs ->]. do 2 f_equal.
  apply soma_Permutation. by rewrite (amounts_of_Permutation c _ _ Hperm).
Qed.

(** The categories of the grouped table, in their order, are those of
    the keys of the sums. *)
Lemma reset_index_keys (sums sums' : gmap string number) :
  (∀ c, is_Some (sums !! c) ↔ is_Some (sums' !! c)) →
  (Pd.reset_index sums).*1 = (Pd.reset_index sums').*1.
Proof.
  intros Hdom. unfold Pd.reset_index.
  rewrite !(sort_by_fmap fst String.ltb). f_equal.
  assert (∀ m : gmap string number,
            (map_to_list m).*1 = (map_to_list ((λ _, ()) <$> m)).*1) as Hkeys.
  { intros m. rewrite map_to_list_fmap, <- list_fmap_compose.
    by apply list_fmap_ext; intros ? []. }
  rewrite (Hkeys sums), (Hkeys sums'). do 2 f_equal.
  apply map_eq. intros c. rewrite !lookup_fmap.
  specialize (Hdom c). destruct (sums !! c), (sums' !! c); simpl; try done.
  - destruct Hdom as [Hdom _]. by destruct Hdom.
  - destruct Hdom as [_ Hdom]. by destruct Hdom.
Qed.

Section Aggregator_order.

Variable str_to_number : string → option number.
Variable sort_values : tabela → tabela.

(** The records in another order: the rows read are the same rows in
    another order. *)
Lemma agrupar_Permutation (lista_despesas lista_despesas' : list json) (g : tabela) :
  lista_despesas ≡ₚ lista_despesas' →
  Pd.agrupar str_to_number lista_despesas = Some (Ok g) →
  ∃ rows rows',
    rows ≡ₚ rows'
    ∧ g = Pd.reset_index (Pd.groupby_sum rows.*1 (Pd.Series rows.*2))
    ∧ Pd.agrupar str_to_number lista_despesas'
      = Some (Ok (Pd.reset_index (Pd.groupby_sum rows'.*1 (Pd.Series rows'.*2)))).
Proof.
  intros Hperm (df & rows & -> & Hcv & Hck & Hrows & ->)%agrupar_Ok.
  symmetry in Hperm.
  apply Permutation_map_inv in Hperm as (df' & -> & Hdf).
  destruct (Permutation_Forall2 Hdf Hrows) as (rows' & Hr & Hrows').
  exists rows, rows'. split; [done|]. split; [done|].
  apply agrupar_Ok. exists df', rows'.
  split; [done|]. rewrite <- !(has_column_Permutation _ _ _ Hdf). done.
Qed.

End Aggregator_order.

Lemma grouped_keys_Permutation (rows rows' : list (option string * number)) :
  rows ≡ₚ rows' →
  (Pd.reset_index (Pd.groupby_sum rows'.*1 (Pd.Series rows'.*2))).*1
  = (Pd.reset_index (Pd.groupby_sum rows.*1 (Pd.Series rows.*2))).*1.
Proof.
  intros Hr. apply reset_index_keys. intros c. rewrite !lookup_groupby_sum.
  assert (Some c ∈ rows'.*1 ↔ Some c ∈ rows.*1) as Hmem by (by rewrite Hr).
  destruct (decide (Some c ∈ rows'.*1)) as [Hc|Hc];
    destruct (decide (Some c ∈ rows.*1)) as [Hc'|Hc']; try done; exfalso; tauto.
Qed.

Lemma grouped_Permutation_int (rows rows' : list (option string * number)) :
  rows ≡ₚ rows' →
  Forall (λ r, is_Some (inteiro r.2))
    (Pd.reset_index (Pd.groupby_sum rows.*1 (Pd.Series rows.*2))) →
  Pd.reset_index (Pd.groupby_sum rows'.*1 (Pd.Series rows'.*2))
  = Pd.reset_index (Pd.groupby_sum rows.*1 (Pd.Series rows.*2)).
Proof.
  intros Hr Hint. pose proof (grouped_keys_Permutation rows rows' Hr) as Hkeys.
  destruct (mapM inteiro rows.*2) as [zs|] eqn:Hzs.
  - f_equal. apply map_eq. intros c. rewrite !lookup_groupby_sum.
    rewrite (column_total_Permutation c rows rows' Hr) by (by rewrite Hzs).
    assert (Some c ∈ rows'.*1 ↔ Some c ∈ rows.*1) as Hmem by (by rewrite Hr).
    destruct (decide (Some c ∈ rows'.*1)) as [Hc|Hc];
      destruct (decide (Some c ∈ rows.*1)) as [Hc'|Hc']; try done; exfalso; tauto.
  - destruct (Pd.reset_index (Pd.groupby_sum rows.*1 (Pd.Series rows.*2)))
      as [|[c t] g0] eqn:Hg.
    + by apply fmap_nil_inv in Hkeys.
    + exfalso. apply Forall_cons in Hint as [[z Hz] _].
      assert ((c, t) ∈ (c, t) :: g0) as Hin by apply list_elem_of_here.
      rewrite <- Hg in Hin. apply elem_of_grouped in Hin as [_ Ht].
      unfold column_total in Ht. rewrite Hzs in Ht. by subst t.
Qed.

(** C8, as the program has it.  When the aggregation produces a table for
    a list of records, it produces one for every permutation of the list.
    Before the final sort the two tables have the same categories in the
    same order.  When the totals are integers (the amounts are a column
    of int64) the two tables are equal, and so is the output.  (When the
    column is float64, a total is the sum of the amounts of the category
    in the order of the records, rounded at each addition, and can differ
    between two orders.) *)
Theorem aggregator_order_of_records
    (str_to_number : string → option number) (sort_values : tabela → tabela)
    (lista_despesas lista_despesas' : list json) (out : tabela) :
  lista_despesas ≡ₚ lista_despesas' →
  Pd.despesas_agrupadas str_to_number sort_values lista_despesas = Some (Ok out) →
  ∃ g g',
    Pd.agrupar str_to_number lista_despesas = Some (Ok g)
    ∧ out = sort_values g
    ∧ Pd.agrupar str_to_number lista_despesas' = Some (Ok g')
    ∧ Pd.despesas_agrupadas str_to_number sort_values lista_despesas'
      = Some (Ok (sort_values g'))
    ∧ g'.*1 = g.*1
    ∧ (Forall (λ r, is_Some (inteiro r.2)) g →
       g' = g
       ∧ Pd.despesas_agrupadas str_to_number sort_values lista_despesas'
         = Some (Ok out)).
Proof.
  intros Hperm (g & Hg & ->)%despesas_agrupadas_Ok.
  destruct (agrupar_Permutation str_to_number _ _ g Hperm Hg)
    as (rows & rows' & Hr & -> & Hg').
  eexists _, _. split; [done|]. split; [done|]. split; [exact Hg'|].
  split; [apply despesas_agrupadas_Ok; by eexists|].
  split; [by apply grouped_keys_Permutation|].
  intros Hint. pose proof (grouped_Permutation_int rows rows' Hr Hint) as Heq.
  split; [done|]. apply despesas_agrupadas_Ok. eexists. split; [exact Hg'|].
  by rewrite Heq.
Qed.

(** *** Records as the data model has them *)

Lemma valor_valor_ou_nan (str_to_number : string → option number) (v : json) (n : number) :
  valor str_to_number v = Some n → valor_ou_nan str_to_number v = Some n.
Proof.
  destruct v as [| | | |s| |]; simpl; try done. by destruct (String.eqb s "").
Qed.

Section Aggregator_records.

Variable str_to_number : string → option number.

Lemma represents_frame (lista_despesas : list json) (rows : list (string * number)) :
  Forall2 (represents str_to_number) lista_despesas rows →
  ∃ df, lista_despesas = JObj <$> df
        ∧ Forall2 (reads str_to_number) df (typed rows)
        ∧ Forall (λ members, is_Some (Py.dict_get "tipoDespesa" members)
                             ∧ is_Some (Py.dict_get "valorLiquido" members)) df.
Proof.
  induction 1 as [|x r l rows (members & v & -> & Hk & Hv & Hn) _ (df & -> & Hdf & Hcols)].
  - exists []. repeat split; constructor.
  - exists (members :: df). split; [done|]. split.
    + constructor; [|done]. unfold reads. rewrite Hk, Hv. simpl.
      split; [done|by apply valor_valor_ou_nan].
    + constructor; [|done]. by rewrite Hk, Hv.
Qed.

Lemma agrupar_typed (lista_despesas : list json) (rows : list (string * number)) :
  lista_despesas ≠ [] →
  Forall2 (represents str_to_number) lista_despesas rows →
  Pd.agrupar str_to_number lista_despesas
  = Some (Ok (Pd.reset_index
                (Pd.groupby_sum (typed rows).*1 (Pd.Series (typed rows).*2)))).
Proof.
  intros Hne (df & -> & Hdf & Hcols)%represents_frame.
  apply agrupar_Ok. exists df, (typed rows).
  destruct Hcols as [|members df' [Hk Hv] _]; [done|].
  unfold has_column. simpl. by rewrite !bool_decide_true.
Qed.

End Aggregator_records.

Lemma typed_keys (rows : list (string * number)) (c : string) :
  Some c ∈ (typed rows).*1 ↔ c ∈ rows.*1.
Proof.
  unfold typed. rewrite <- list_fmap_compose.
  rewrite !list_elem_of_fmap. split.
  - intros (r & [= ->] & Hr). by exists r.
  - intros (r & -> & Hr). by exists r.
Qed.

(** *** Sums *)

Lemma soma_insert_fresh (sums : gmap string Z) (k : string) (v : Z) :
  sums !! k = None →
  soma (map_to_list (<[k:=v]> sums)).*2 = v + soma (map_to_list sums).*2.
Proof.
  intros Hk. rewrite (soma_Permutation _ ((k, v) :: map_to_list sums).*2); [done|].
  apply fmap_Permutation. by apply map_to_list_insert.
Qed.

Lemma soma_insert_add (sums : gmap string Z) (k : string) (v : Z) :
  soma (map_to_list (<[k := default 0 (sums !! k) + v]> sums)).*2
  = soma (map_to_list sums).*2 + v.
Proof.
  destruct (sums !! k) as [old|] eqn:Hk; simpl.
  - rewrite <- (insert_delete_eq sums).
    rewrite <- (insert_delete_id sums k old Hk) at 2.
    rewrite !soma_insert_fresh by apply lookup_delete_eq. lia.
  - rewrite soma_insert_fresh by done. lia.
Qed.

(** Without wrap-around, the sums of the groups add up to the sum of the
    column. *)
Lemma soma_group_sum (rows : list (string * Z)) :
  soma (map_to_list (Pd.group_sum Z.add 0 ((λ r, (Some r.1, r.2)) <$> rows))).*2
  = soma rows.*2.
Proof.
  unfold Pd.group_sum.
  enough (∀ sums : gmap string Z,
            soma (map_to_list
                    (fold_left (λ (sums : gmap string Z) (row : option string * Z),
                                  match row.1 with
                                  | Some k => <[k := default 0 (sums !! k) + row.2]> sums
                                  | None => sums
                                  end)
                       ((λ r : string * Z, (Some r.1, r.2)) <$> rows) sums)).*2
            = soma (map_to_list sums).*2 + soma rows.*2) as H.
  { rewrite H, map_to_list_empty. simpl. lia. }
  induction rows as [|r rows IH]; intros sums.
  - simpl. lia.
  - rewrite !fmap_cons. cbn [fold_left fst snd]. rewrite IH, soma_insert_add.
    simpl. lia.
Qed.

Lemma fold_add_Z (zs : list Z) (a : Z) : fold_left Z.add zs a = a + soma zs.
Proof.
  revert a. induction zs as [|z zs IH]; intros a; simpl; [lia|]. rewrite IH. lia.
Qed.

(** The sums of the groups of an int64 column are the sums of the groups,
    wrapped. *)
Lemma group_sum_add_int (rows : list (option string * Z)) :
  Pd.group_sum Pd.add_int 0 rows = Np.wrap64 <$> Pd.group_sum Z.add 0 rows.
Proof.
  apply map_eq. intros c. rewrite lookup_fmap, !group_sum_lookup.
  destruct (decide (Some c ∈ rows.*1)); [|done]. simpl. f_equal.
  change 0 with (Np.wrap64 0) at 1. by rewrite fold_add_int, fold_add_Z.
Qed.

Lemma wrap64_soma (zs : list Z) :
  Np.wrap64 (soma (Np.wrap64 <$> zs)) = Np.wrap64 (soma zs).
Proof.
  induction zs as [|z zs IH]; [done|]. rewrite fmap_cons. cbn [soma foldr].
  fold (soma (Np.wrap64 <$> zs)). fold (soma zs).
  rewrite wrap64_add. rewrite (Z.add_comm z), <- wrap64_add, IH, wrap64_add.
  f_equal. lia.
Qed.

Lemma fmap_wrap64_id (zs : list Z) :
  Forall (λ z, Np.int64 z = true) zs → Np.wrap64 <$> zs = zs.
Proof.
  induction 1 as [|z zs Hz _ IH]; [done|].
  rewrite fmap_cons, IH. f_equal. by apply wrap64_int64.
Qed.



(** ** The script *)

Lemma mapM_res_Raise {A B} (f : A → res B) (l : list A) :
  Exists (λ x, ∃ e, f x = Raise e) l →
  ∃ x e, x ∈ l ∧ f x = Raise e ∧ mapM f l = Raise e.
Proof.
  induction l as [|x l IH]; [by intros ?%Exists_nil|].
  intros Hex. simpl. destruct (f x) as [y|e] eqn:Hx.
  - apply Exists_cons in Hex as [[e He]|Hex]; [congruence|].
    destruct (IH Hex) as (x' & e & Hin & Hx' & Hl).
    exists x', e. split; [by apply list_elem_of_further|]. split; [done|].
    simpl. by rewrite Hl.
  - exists x, e. split; [apply list_elem_of_here|done].
Qed.

Lemma to_numeric1_Raise (str_to_number : string → option number) (v : json) (e : exn) :
  Pd.to_numeric1 str_to_number v = Raise e → e = TypeError ∨ ∃ s, e = ValueError s.
Proof.
  destruct v as [| | | |s| |]; simpl; try done.
  - destruct (String.eqb s ""); [done|].
    destruct (str_to_number s); [done|]. intros [= <-]. right. by exists s.
  - intros [= <-]. by left.
  - intros [= <-]. by left.
Qed.

Lemma despesas_agrupadas_Raise
    (str_to_number : string → option number) (sort_values : tabela → tabela)
    (df : Pd.frame) :
  Exists (λ members, ∃ v, Py.dict_get "valorLiquido" members = Some v
                          ∧ ∃ e, Pd.to_numeric1 str_to_number v = Raise e) df →
  ∃ e, (e = TypeError ∨ ∃ s, e = ValueError s)
       ∧ Pd.despesas_agrupadas str_to_number sort_values (JObj <$> df) = Some (Raise e).
Proof.
  intros Hex. unfold Pd.despesas_agrupadas, Pd.agrupar.
  rewrite (proj2 (DataFrame_Some (JObj <$> df) df) eq_refl). cbn [mbind option_bind].
  unfold Pd.column.
  replace (existsb (λ row, bool_decide (is_Some (Py.dict_get "valorLiquido" row))) df)
    with true.
  2:{ symmetry. apply existsb_exists. apply Exists_exists in Hex as (m & Hm & v & Hv & _).
      exists m. split; [by apply list_elem_of_In|].
      apply bool_decide_eq_true. by rewrite Hv. }
  cbn [mbind res_bind]. unfold Pd.to_numeric.
  destruct (mapM_res_Raise (Pd.to_numeric1 str_to_number)
              ((λ row, default JNull (Py.dict_get "valorLiquido" row)) <$> df))
    as (x & e & _ & Hx & ->).
  { apply Exists_fmap. eapply Exists_impl; [exact Hex|].
    intros m (v & Hv & e & He). exists e. simpl. by rewrite Hv. }
  exists e. split; [by eapply to_numeric1_Raise|done].
Qed.


(** * The scenarios of the specification *)

(** Scenario A: one match, returned with its four fields. *)
Lemma resolver_postcondition_witness :
  buscar_deputado_id upstream_B "Maria do Rosário" world0
  = (Ok (Some {| Info.id := JInt 204379; Info.nome := JStr "Maria do Rosário";
                 Info.partido := JStr "PT"; Info.uf := JStr "RS" |}),
     send (GET_deputados "Maria do Rosário") world0).
Proof.
  apply (resolver_postcondition upstream_B "Maria do Rosário" world0
           {| status_code := 200; body := Some (JObj [("dados", JArr [maria])]) |}
           (JObj [("dados", JArr [maria])]) [maria]);
    first [reflexivity | simpl; lia].
Defined.

(** A timeout during the search: an error element and [None]. *)
Lemma resolver_transport_failure_witness :
  buscar_deputado_id upstream_timeout "Maria do Rosário" world0
  = (Ok None,
     show (error_buscar_deputado (Timeout "timed out"))
          (send (GET_deputados "Maria do Rosário") world0)).
Proof.
  apply (resolver_transport_failure upstream_timeout). reflexivity.
Defined.

(** C5 as stated does not hold: on a timeout the resolver raises nothing
    and returns [None], the value it returns when the search finds nobody. *)
Lemma resolver_failure_returns_None :
  (buscar_deputado_id upstream_timeout "Maria do Rosário" world0).1 = Ok None
  ∧ (buscar_deputado_id upstream_timeout "Maria do Rosário" world0).1
    = (buscar_deputado_id upstream_nobody "Maria do Rosário" world0).1.
Proof. split; reflexivity. Qed.

(** Scenario B: 137 records from 2 requests. *)
Lemma fetcher_postcondition_witness :
  ∃ lista_despesas,
    buscar_todas_despesas upstream_B 2 (JInt 204379) world0
    = Some (Ok lista_despesas,
            {| sent := [GET_despesas (JInt 204379) 1 100; GET_despesas (JInt 204379) 2 100];
               page := [] |})
    ∧ length lista_despesas = 137%nat.
Proof.
  destruct (fetcher_postcondition upstream_B (JInt 204379) pages_B 2 2 world0)
    as (Hrun & _ & Hlen).
  - lia.
  - intros i Hi. reflexivity.
  - intros i Hi. assert (i = 1%nat) as -> by lia. split; [discriminate|reflexivity].
  - right. reflexivity.
  - exists (records_of pages_B 1 2). split; [exact Hrun|exact Hlen].
Defined.

(** Scenario D: the records of pages 1 and 2, and an error for page 3. *)
Lemma fetcher_partial_result_witness :
  buscar_todas_despesas upstream_D 5 (JInt 204379) world0
  = Some (Ok (dados (pages_D 1) ++ dados (pages_D 2)),
          {| sent := [GET_despesas (JInt 204379) 1 100; GET_despesas (JInt 204379) 2 100;
                      GET_despesas (JInt 204379) 3 100];
             page := [error_buscar_despesas 3 (Timeout "timed out")] |}).
Proof.
  apply (fetcher_partial_result upstream_D (JInt 204379) pages_D 3 5 world0).
  - lia.
  - intros i Hi. assert (i = 1 ∨ i = 2)%nat as [-> | ->] by lia;
      (split; [reflexivity|split; [discriminate|reflexivity]]).
  - reflexivity.
Defined.

(** No expenses against a failed first request. *)
Lemma fetcher_empty_vs_failed_witness :
  ∃ w_empty w_failed,
    buscar_todas_despesas upstream_empty 1 (JInt 204379) world0 = Some (Ok [], w_empty)
    ∧ buscar_todas_despesas upstream_timeout 1 (JInt 204379) world0 = Some (Ok [], w_failed)
    ∧ page w_empty = page world0
    ∧ page w_failed = page world0 ++ [error_buscar_despesas 1 (Timeout "timed out")]
    ∧ page w_empty ≠ page w_failed.
Proof.
  apply (fetcher_empty_vs_failed upstream_empty upstream_timeout (JInt 204379)
           {| dados := []; links := [self_link] |}); reflexivity.
Defined.

(** A page without the [links] member: the [KeyError] leaves the fetcher. *)
Lemma fetcher_key_error_escapes_witness :
  buscar_todas_despesas upstream_no_links 1 (JInt 204379) world0
  = Some (Raise (KeyError (JStr "links")),
          {| sent := [GET_despesas (JInt 204379) 1 100]; page := [] |}).
Proof.
  apply (fetcher_key_error_escapes upstream_no_links (JInt 204379) pages_B 1 1 world0
           {| status_code := 200;
              body := Some (JObj [("dados", JArr [despesa "Combustível" "1.00"])]) |}
           [("dados", JArr [despesa "Combustível" "1.00"])]
           (despesa "Combustível" "1.00") [] "links").
  - lia.
  - intros i Hi. lia.
  - reflexivity.
  - simpl. lia.
  - reflexivity.
  - reflexivity.
  - left. split; reflexivity.
Defined.

(** The records of scenario C as the data model has them. *)
Lemma scenario_C_represents :
  Forall2 (represents Pd.decimal_literal) scenario_C
    [("Combustível", NFloat 150); ("Combustível", NFloat 50);
     ("Passagem Aérea", NFloat 800)].
Proof.
  repeat constructor; eexists _, _; repeat split; reflexivity.
Defined.





(** Integer amounts in another order: the same table. *)
Lemma aggregator_order_of_records_witness :
  ∃ g g',
    Pd.agrupar Pd.decimal_literal
      [despesa_int "Combustível" 150; despesa_int "Passagem Aérea" 800;
       despesa_int "Combustível" 50]
    = Some (Ok g)
    ∧ [("Passagem Aérea", NInt 800); ("Combustível", NInt 200)] = Pd.insertion_sort g
    ∧ Pd.agrupar Pd.decimal_literal
        [despesa_int "Passagem Aérea" 800; despesa_int "Combustível" 150;
         despesa_int "Combustível" 50]
      = Some (Ok g')
    ∧ Pd.despesas_agrupadas Pd.decimal_literal Pd.insertion_sort
        [despesa_int "Passagem Aérea" 800; despesa_int "Combustível" 150;
         despesa_int "Combustível" 50]
      = Some (Ok (Pd.insertion_sort g'))
    ∧ g'.*1 = g.*1
    ∧ (Forall (λ r, is_Some (inteiro r.2)) g →
       g' = g
       ∧ Pd.despesas_agrupadas Pd.decimal_literal Pd.insertion_sort
           [despesa_int "Passagem Aérea" 800; despesa_int "Combustível" 150;
            despesa_int "Combustível" 50]
         = Some (Ok [("Passagem Aérea", NInt 800); ("Combustível", NInt 200)])).
Proof.
  apply (aggregator_order_of_records Pd.decimal_literal Pd.insertion_sort
           [despesa_int "Combustível" 150; despesa_int "Passagem Aérea" 800;
            despesa_int "Combustível" 50]).
  - apply perm_swap.
  - vm_compute. reflexivity.
Defined.

(** C8 as stated does not hold: three float amounts of one category in
    two orders.  The total is 0.0 for one order and 1.0 for the other. *)
Lemma aggregator_order_dependent :
  order_1 ≡ₚ order_2
  ∧ Pd.despesas_agrupadas Pd.decimal_literal Pd.insertion_sort order_1
    = Some (Ok [("Combustível", NFloat 0)])
  ∧ Pd.despesas_agrupadas Pd.decimal_literal Pd.insertion_sort order_2
    = Some (Ok [("Combustível", NFloat 1)]).
Proof.
  split; [|split].
  - unfold order_1, order_2. apply perm_skip, perm_swap.
  - vm_compute. reflexivity.
  - vm_compute. reflexivity.
Qed.



(** * Further properties of the program *)

(** ** Resolver *)

Lemma getitem_Raise (x : json) (k : string) (e : exn) :
  Py.getitem x k = Raise e → e = TypeError ∨ e = KeyError (JStr k).
Proof.
  destruct x; simpl; try (intros [= <-]; by left).
  destruct (Py.dict_get k members); [done|]. intros [= <-]. by right.
Qed.

Lemma getitem0_Raise (x : json) (e : exn) :
  Py.getitem0 x = Raise e → e = TypeError ∨ e = IndexError ∨ e = KeyError (JInt 0).
Proof.
  destruct x as [| | | |s|items|members]; simpl; try (intros [= <-]; by left).
  - destruct (Py.code_points s); [|done]. intros [= <-]. right. by left.
  - destruct items; [|done]. intros [= <-]. right. by left.
  - intros [= <-]. right. by right.
Qed.

Ltac getitem_cases :=
  repeat match goal with
         | |- context [Py.getitem ?x ?k] =>
             let H := fresh in
             destruct (Py.getitem x k) eqn:H; simpl;
             [|apply getitem_Raise in H as [-> | ->]; done]
         end.

(** X1. Whatever the service replies, one execution of the body of
    [buscar_deputado_id] (a call whose name is not in the cache) sends
    exactly one request, the search for the given name, and writes to the
    page exactly when that request fails in transport: then one error
    element with the cause, otherwise nothing. *)
Theorem resolver_effect (upstream : request → reply) (nome : string) (w : world) :
  (buscar_deputado_id upstream nome w).2
  = {| sent := sent w ++ [GET_deputados nome];
       page := page w ++ match transport_failure (upstream (GET_deputados nome)) with
                         | Some e => [error_buscar_deputado e]
                         | None => []
                         end |}.
Proof.
  unfold transport_failure. run_M. unfold send, show.
  destruct (upstream _) as [e|r]; [done|]. simpl.
  destruct ((400 <=? status_code r) && (status_code r <? 600)); [done|]. simpl.
  destruct (body r) as [dados|]; [|done]. simpl.
  rewrite app_nil_r.
  destruct (Py.getitem dados "dados") as [resultados|e] eqn:Hd; simpl;
    [|by apply getitem_Raise in Hd as [-> | ->]].
  destruct (Py.truthy resultados); simpl; [|done].
  destruct (Py.getitem0 resultados) as [primeiro|e] eqn:H0; simpl;
    [|by apply getitem0_Raise in H0 as [-> | [-> | ->]]].
  by getitem_cases.
Qed.

(** X3. A successful search response whose object has no [dados] member
    makes the resolver raise [KeyError] for [dados]: the handler does not
    take it and nothing is written to the page. *)
Theorem resolver_missing_dados
    (upstream : request → reply) (nome : string) (w : world)
    (r : Response) (members : list (string * json)) :
  upstream (GET_deputados nome) = Responds r →
  ¬ (400 ≤ status_code r < 600) →
  body r = Some (JObj members) →
  Py.dict_get "dados" members = None →
  buscar_deputado_id upstream nome w
  = (Raise (KeyError (JStr "dados")), send (GET_deputados nome) w).
Proof.
  intros Hr Hst%status_ok_false Hb Hd.
  assert (Py.getitem (JObj members) "dados" = Raise (KeyError (JStr "dados"))) as Hg
    by (simpl; by rewrite Hd).
  run_M. by rewrite Hr, Hst, Hb, Hg.
Qed.

Lemma resolver_missing_dados_witness :
  buscar_deputado_id upstream_sem_dados "Maria" world0
  = (Raise (KeyError (JStr "dados")), send (GET_deputados "Maria") world0).
Proof.
  apply (resolver_missing_dados upstream_sem_dados "Maria" world0
           {| status_code := 200; body := Some (JObj [("erro", JStr "indisponível")]) |}
           [("erro", JStr "indisponível")]); first [reflexivity | simpl; lia].
Defined.

(** X4. When the first result is an object that lacks one of the fields
    [id], [nome], [siglaPartido], [siglaUf], the resolver raises
    [KeyError] for the first missing one in that order, and writes nothing. *)
Theorem resolver_missing_field
    (upstream : request → reply) (nome : string) (w : world)
    (r : Response) (dados : json) (primeiro : list (string * json))
    (resto : list json) (campo : string) :
  upstream (GET_deputados nome) = Responds r →
  ¬ (400 ≤ status_code r < 600) →
  body r = Some dados →
  Py.getitem dados "dados" = Ok (JArr (JObj primeiro :: resto)) →
  find (λ k, bool_decide (Py.dict_get k primeiro = None)) campos = Some campo →
  buscar_deputado_id upstream nome w
  = (Raise (KeyError (JStr campo)), send (GET_deputados nome) w).
Proof.
  intros Hr Hst%status_ok_false Hb Hd Hfind. run_M. rewrite Hr, Hst, Hb, Hd. simpl.
  unfold campos in Hfind. simpl in Hfind.
  repeat (match type of Hfind with
          | context [bool_decide (Py.dict_get ?k primeiro = None)] =>
              destruct (Py.dict_get k primeiro) eqn:?; simpl in Hfind
          end; try (by injection Hfind as <-)).
  done.
Qed.

Lemma resolver_missing_field_witness :
  buscar_deputado_id upstream_sem_partido "Maria" world0
  = (Raise (KeyError (JStr "siglaPartido")), send (GET_deputados "Maria") world0).
Proof.
  eapply (resolver_missing_field upstream_sem_partido "Maria" world0 _ _ _ []);
    first [reflexivity | simpl; lia].
Defined.

(** X2. No [RequestException] ever leaves the resolver. *)
Theorem resolver_contains_transport_errors
    (upstream : request → reply) (nome : string) (w : world) (e : request_exception) :
  (buscar_deputado_id upstream nome w).1 ≠ Raise (RequestException e).
Proof.
  run_M.
  destruct (upstream _) as [e'|r]; [done|]. simpl.
  destruct ((400 <=? status_code r) && (status_code r <? 600)); [done|]. simpl.
  destruct (body r) as [dados|]; [|done]. simpl.
  destruct (Py.getitem dados "dados") as [resultados|e'] eqn:Hd; simpl;
    [|by apply getitem_Raise in Hd as [-> | ->]].
  destruct (Py.truthy resultados); simpl; [|done].
  destruct (Py.getitem0 resultados) as [primeiro|e'] eqn:H0; simpl;
    [|by apply getitem0_Raise in H0 as [-> | [-> | ->]]].
  by getitem_cases.
Qed.

(** X5. The resolver reads the first result only: two successful search
    responses whose lists start with the same element give the same
    outcome, whatever follows that element. *)
Theorem resolver_first_only
    (upstream upstream' : request → reply) (nome : string) (w : world)
    (r r' : Response) (dados dados' primeiro : json) (resto resto' : list json) :
  upstream (GET_deputados nome) = Responds r →
  upstream' (GET_deputados nome) = Responds r' →
  ¬ (400 ≤ status_code r < 600) →
  ¬ (400 ≤ status_code r' < 600) →
  body r = Some dados →
  body r' = Some dados' →
  Py.getitem dados "dados" = Ok (JArr (primeiro :: resto)) →
  Py.getitem dados' "dados" = Ok (JArr (primeiro :: resto')) →
  buscar_deputado_id upstream nome w = buscar_deputado_id upstream' nome w.
Proof.
  intros Hr Hr' Hst%status_ok_false Hst'%status_ok_false Hb Hb' Hd Hd'.
  run_M. by rewrite Hr, Hr', Hst, Hst', Hb, Hb', Hd, Hd'.
Qed.

Lemma resolver_first_only_witness :
  buscar_deputado_id upstream_B "Maria" world0
  = buscar_deputado_id (upstream_of [maria; JNull; JStr "x"] (λ _, Fails JSONDecodeError))
      "Maria" world0.
Proof.
  eapply (resolver_first_only upstream_B _ "Maria" world0 _ _ _ _ maria [] [JNull; JStr "x"]);
    first [reflexivity | simpl; lia].
Defined.

(** ** Paginated fetcher *)

(** X6. The loop has no bound of its own: against a service whose every
    page has records and a link with relation ["next"], the fetcher does
    not return, whatever the fuel. *)
Theorem fetcher_never_returns
    (upstream : request → reply) (deputado_id : json) (pages : nat → pagina_t) :
  (∀ i, (1 ≤ i)%nat →
        upstream (GET_despesas deputado_id i 100) = pagina_reply (pages i)
        ∧ continues (pages i)) →
  ∀ fuel w, buscar_todas_despesas upstream fuel deputado_id w = None.
Proof.
  intros Hup fuel w. unfold buscar_todas_despesas.
  replace fuel with (fuel + 0)%nat by lia.
  by rewrite (while_True_continues upstream deputado_id pages fuel)
    by (intros i Hi; apply Hup; lia).
Qed.

Lemma fetcher_never_returns_witness :
  buscar_todas_despesas upstream_endless 50 (JInt 204379) world0 = None.
Proof.
  apply (fetcher_never_returns upstream_endless (JInt 204379) pages_D).
  intros i Hi. split; [reflexivity|split; [discriminate|reflexivity]].
Defined.

Lemma iter_Raise (x : json) (e : exn) : Py.iter x = Raise e → e = TypeError.
Proof. destruct x; simpl; try done; by intros [= <-]. Qed.

Lemma links_comprehension_Raise (items : list json) (links : list (json * json)) (e : exn) :
  links_comprehension items links = Raise e →
  ∀ e', e ≠ RequestException e'.
Proof.
  revert links. induction items as [|link items IH]; intros links; [done|]. simpl.
  destruct (Py.getitem link "rel") as [rel|] eqn:Hrel; simpl;
    [|apply getitem_Raise in Hrel as [-> | ->]; by intros [= <-]].
  destruct (Py.getitem link "href") as [href|] eqn:Hhref; simpl;
    [|apply getitem_Raise in Hhref as [-> | ->]; by intros [= <-]].
  destruct (Py.hashable rel); [apply IH|by intros [= <-]].
Qed.

(** No statement of lines 59-67 raises a [RequestException]. *)
Lemma process_page_Raise (dados : json) (todas_despesas : list json) (pagina : nat) (e : exn) :
  process_page dados todas_despesas pagina = Raise e →
  ∀ e', e ≠ RequestException e'.
Proof.
  unfold process_page.
  destruct (Py.getitem dados "dados") as [registros|] eqn:Hd; simpl;
    [|apply getitem_Raise in Hd as [-> | ->]; by intros [= <-]].
  destruct (Py.truthy registros); [|done].
  destruct (Py.iter registros) as [novos|] eqn:Hi; simpl;
    [|apply iter_Raise in Hi as ->; by intros [= <-]].
  destruct (Py.getitem dados "links") as [ls|] eqn:Hl; simpl;
    [|apply getitem_Raise in Hl as [-> | ->]; by intros [= <-]].
  destruct (Py.iter ls) as [items|] eqn:Hit; simpl;
    [|apply iter_Raise in Hit as ->; by intros [= <-]].
  destruct (links_comprehension items []) as [links|] eqn:Hc; simpl.
  - by destruct (negb (has_next links)).
  - intros [= <-]. by eapply links_comprehension_Raise.
Qed.

Lemma process_page_Continue (dados : json) (todas_despesas todas_despesas' : list json)
    (pagina pagina' : nat) :
  process_page dados todas_despesas pagina = Ok (Continue, todas_despesas', pagina') →
  pagina' = S pagina.
Proof.
  unfold process_page.
  destruct (Py.getitem dados "dados") as [registros|]; simpl; [|done].
  destruct (Py.truthy registros); [|done].
  destruct (Py.iter registros) as [novos|]; simpl; [|done].
  destruct (Py.getitem dados "links") as [ls|]; simpl; [|done].
  destruct (Py.iter ls) as [items|]; simpl; [|done].
  destruct (links_comprehension items []) as [links|]; simpl; [|done].
  destruct (negb (has_next links)); [done|]. by intros [= _ <-].
Qed.

Section Fetcher_any_upstream.

Variable upstream : request → reply.
Variable deputado_id : json.

Lemma try_block_decoded (todas_despesas : list json) (pagina : nat) (w : world) :
  transport_failure (upstream (GET_despesas deputado_id pagina 100)) = None →
  ∃ dados,
    try_block upstream deputado_id todas_despesas pagina w
    = (process_page dados todas_despesas pagina,
       send (GET_despesas deputado_id pagina 100) w).
Proof.
  unfold transport_failure. run_M.
  destruct (upstream _) as [e'|r]; [done|].
  destruct ((400 <=? status_code r) && (status_code r <? 600)); [done|].
  destruct (body r) as [dados|]; [|done]. intros _. by exists dados.
Qed.

Lemma while_True_discipline (fuel : nat) (todas_despesas : list json) (pagina : nat)
    (w w' : world) (r : res (list json)) :
  while_True upstream fuel deputado_id todas_despesas pagina w = Some (r, w') →
  ∃ n, (1 ≤ n ≤ fuel)%nat
       ∧ sent w' = sent w ++ page_requests deputado_id pagina n
       ∧ match transport_failure
                 (upstream (GET_despesas deputado_id (pagina + n - 1) 100)) with
         | Some e =>
             page w' = page w ++ [error_buscar_despesas (pagina + n - 1) e]
             ∧ ∃ lista_despesas, r = Ok lista_despesas
         | None => page w' = page w
         end.
Proof.
  revert todas_despesas pagina w.
  induction fuel as [|fuel IH]; intros acc p w; [done|]. cbn [while_True].
  destruct (transport_failure (upstream (GET_despesas deputado_id p 100)))
    as [e|] eqn:Htf.
  - rewrite (try_block_transport_failure _ _ _ _ _ _ Htf). intros [= <- <-].
    exists 1%nat. replace (p + 1 - 1)%nat with p by lia. rewrite Htf.
    split; [lia|]. split; [done|]. split; [done|by eexists].
  - destruct (try_block_decoded acc p w Htf) as [dados ->].
    destruct (process_page dados acc p) as [[[[|] acc'] p']|e] eqn:Hp.
    + intros [= <- <-]. exists 1%nat. replace (p + 1 - 1)%nat with p by lia.
      rewrite Htf. split; [lia|done].
    + apply process_page_Continue in Hp as ->.
      intros (n & Hn & Hsent & Hpage)%IH. exists (S n).
      replace (p + S n - 1)%nat with (S p + n - 1)%nat by lia.
      split; [lia|]. split; [|done].
      rewrite Hsent. unfold send, page_requests. simpl. by rewrite <- app_assoc.
    + pose proof (process_page_Raise _ _ _ _ Hp) as Hne.
      destruct e as [e| | | | |]; [by destruct (Hne e)|..];
        intros [= <- <-]; exists 1%nat; replace (p + 1 - 1)%nat with p by lia;
        rewrite Htf; (split; [lia|done]).
Qed.

End Fetcher_any_upstream.

(** X7. Whenever the fetcher returns, it has sent the requests for pages
    1 to [n] of the given deputy, 100 items each, once each and in order,
    for some [n] of at least 1.  It has written one error element, naming
    page [n], exactly when the request for page [n] failed in transport,
    and then it returns a list; otherwise it has written nothing. *)
Theorem fetcher_discipline
    (upstream : request → reply) (deputado_id : json) (fuel : nat)
    (w w' : world) (r : res (list json)) :
  buscar_todas_despesas upstream fuel deputado_id w = Some (r, w') →
  ∃ n, (1 ≤ n ≤ fuel)%nat
       ∧ sent w' = sent w ++ page_requests deputado_id 1 n
       ∧ match transport_failure (upstream (GET_despesas deputado_id n 100)) with
         | Some e =>
             page w' = page w ++ [error_buscar_despesas n e]
             ∧ ∃ lista_despesas, r = Ok lista_despesas
         | None => page w' = page w
         end.
Proof.
  intros (n & Hn & Hsent & Hpage)%while_True_discipline. exists n.
  replace (1 + n - 1)%nat with n in Hpage by lia. done.
Qed.

Lemma fetcher_discipline_witness :
  ∃ n, (1 ≤ n ≤ 5)%nat
       ∧ [GET_despesas (JInt 204379) 1 100; GET_despesas (JInt 204379) 2 100;
          GET_despesas (JInt 204379) 3 100]
         = sent world0 ++ page_requests (JInt 204379) 1 n
       ∧ match transport_failure (upstream_D (GET_despesas (JInt 204379) n 100)) with
         | Some e =>
             [error_buscar_despesas 3 (Timeout "timed out")]
             = page world0 ++ [error_buscar_despesas n e]
             ∧ ∃ lista_despesas,
                 Ok (dados (pages_D 1) ++ dados (pages_D 2)) = Ok lista_despesas
         | None => [error_buscar_despesas 3 (Timeout "timed out")] = page world0
         end.
Proof.
  apply (fetcher_discipline upstream_D (JInt 204379) 5 world0
           {| sent := [GET_despesas (JInt 204379) 1 100; GET_despesas (JInt 204379) 2 100;
                       GET_despesas (JInt 204379) 3 100];
              page := [error_buscar_despesas 3 (Timeout "timed out")] |}
           (Ok (dados (pages_D 1) ++ dados (pages_D 2)))).
  reflexivity.
Defined.

(** X9. When the pages before page [N] continue and the response for
    page [N] is decoded, any exception raised by the statements that
    process it (lines 59-67) leaves the fetcher: none of them is a
    [RequestException], no list is returned and nothing is written. *)
Theorem fetcher_processing_error_escapes
    (upstream : request → reply) (deputado_id : json) (pages : nat → pagina_t)
    (N fuel : nat) (w : world) (r : Response) (dados : json) (e : exn) :
  (1 ≤ N ≤ fuel)%nat →
  (∀ i, (1 ≤ i < N)%nat →
        upstream (GET_despesas deputado_id i 100) = pagina_reply (pages i)
        ∧ continues (pages i)) →
  upstream (GET_despesas deputado_id N 100) = Responds r →
  ¬ (400 ≤ status_code r < 600) →
  body r = Some dados →
  process_page dados (records_of pages 1 (N - 1)) N = Raise e →
  buscar_todas_despesas upstream fuel deputado_id w
  = Some (Raise e,
          {| sent := sent w ++ page_requests deputado_id 1 N; page := page w |}).
Proof.
  intros HN Hup Hr Hst%status_ok_false Hb Hp.
  destruct N as [|m]; [lia|].
  replace fuel with (m + S (fuel - S m))%nat by lia.
  rewrite (buscar_todas_despesas_prefix upstream deputado_id pages) by done.
  rewrite page_requests_S. cbn [while_True]. run_M.
  rewrite Hr, Hst, Hb. rewrite Nat.sub_succ, Nat.sub_0_r in Hp. rewrite Hp.
  pose proof (process_page_Raise _ _ _ _ Hp) as Hne.
  unfold after_requests, send. simpl. rewrite <- app_assoc.
  destruct e as [e| | | | |]; [by destruct (Hne e)|done..].
Qed.

Lemma fetcher_processing_error_escapes_witness :
  buscar_todas_despesas upstream_null_links 1 (JInt 204379) world0
  = Some (Raise TypeError,
          {| sent := [GET_despesas (JInt 204379) 1 100]; page := [] |}).
Proof.
  eapply (fetcher_processing_error_escapes upstream_null_links (JInt 204379) pages_B 1 1
            world0).
  - lia.
  - intros i Hi. lia.
  - reflexivity.
  - simpl. lia.
  - reflexivity.
  - reflexivity.
Defined.

Lemma while_True_contains_transport_errors
    (upstream : request → reply) (deputado_id : json) (fuel : nat)
    (todas_despesas : list json) (pagina : nat) (w w' : world) (r : res (list json)) :
  while_True upstream fuel deputado_id todas_despesas pagina w = Some (r, w') →
  ∀ e, r ≠ Raise (RequestException e).
Proof.
  revert todas_despesas pagina w.
  induction fuel as [|fuel IH]; intros acc p w; [done|]. cbn [while_True].
  destruct (try_block upstream deputado_id acc p w) as [[[[[|] acc'] p']|e] w1].
  - by intros [= <- <-].
  - apply IH.
  - destruct e; by intros [= <- <-].
Qed.

(** X8. No [RequestException] ever leaves the fetcher. *)
Theorem fetcher_contains_transport_errors
    (upstream : request → reply) (deputado_id : json) (fuel : nat)
    (w w' : world) (r : res (list json)) (e : request_exception) :
  buscar_todas_despesas upstream fuel deputado_id w = Some (r, w') →
  r ≠ Raise (RequestException e).
Proof. intros H. by eapply while_True_contains_transport_errors. Qed.

Lemma fetcher_contains_transport_errors_witness :
  Ok (dados (pages_D 1) ++ dados (pages_D 2))
  ≠ Raise (RequestException (Timeout "timed out")).
Proof.
  apply (fetcher_contains_transport_errors upstream_D (JInt 204379) 5 world0
           {| sent := [GET_despesas (JInt 204379) 1 100; GET_despesas (JInt 204379) 2 100;
                       GET_despesas (JInt 204379) 3 100];
              page := [error_buscar_despesas 3 (Timeout "timed out")] |}).
  reflexivity.
Defined.

(** ** The script, end to end *)

Section Script_facts.

Variable upstream : request → reply.
Variable str_to_number : string → option number.
Variable sort_values : tabela → tabela.

Lemma buscar_deputado_id_failure (nome : string) (w : world) (e : request_exception) :
  transport_failure (upstream (GET_deputados nome)) = Some e →
  buscar_deputado_id upstream nome w
  = (Ok None, show (error_buscar_deputado e) (send (GET_deputados nome) w)).
Proof.
  unfold transport_failure. run_M.
  destruct (upstream _) as [e'|r]; [by intros [= ->]|].
  destruct ((400 <=? status_code r) && (status_code r <? 600)); [by intros [= <-]|].
  destruct (body r); [done|by intros [= <-]].
Qed.

Lemma buscar_deputado_id_finds (nome : string) (w : world) (info : Info.t) :
  finds upstream nome info →
  buscar_deputado_id upstream nome w = (Ok (Some info), send (GET_deputados nome) w).
Proof.
  intros (r & dados & primeiro & resto & Hr & Hst%status_ok_false & Hb & Hd
          & Hi & Hn & Hp & Hu).
  run_M. rewrite Hr, Hst, Hb, Hd. simpl. rewrite Hi, Hn, Hp, Hu. by destruct info.
Qed.

(** The script once the deputy is found: what follows depends on the
    fetcher and on the aggregation only. *)
Lemma script_found (fuel : nat) (nome : string) (w : world) (info : Info.t) :
  nome ≠ "" →
  finds upstream nome info →
  script upstream str_to_number sort_values fuel nome true w
  = match buscar_todas_despesas upstream fuel (Info.id info)
            (show (success_of info) (send (GET_deputados nome) w)) with
    | None => None
    | Some (Raise e, w3) => Some (Raise e, w3)
    | Some (Ok [], w3) => Some (Ok (), show info_sem_despesas w3)
    | Some (Ok lista_despesas, w3) =>
        let w4 := show (info_total_registros (length lista_despesas)) w3 in
        match Pd.despesas_agrupadas str_to_number sort_values lista_despesas with
        | None => None
        | Some (Raise e) => Some (Raise e, w4)
        | Some (Ok t) => Some (Ok (), show (dataframe t)
                                        (show subheader_dados_agrupados
                                           (show (plotly_chart t) w4)))
        end
    end.
Proof.
  intros Hnome%String.eqb_neq Hfinds. unfold script. cbn [negb].
  by rewrite Hnome, (buscar_deputado_id_finds nome w info Hfinds).
Qed.

End Script_facts.

Lemma records_of_nonempty (pages : nat → pagina_t) (n : nat) :
  (1 ≤ n)%nat → continues (pages 1%nat) → records_of pages 1 n ≠ [].
Proof.
  intros Hn [Hne _]. destruct n as [|n]; [lia|]. unfold records_of. simpl.
  by destruct (dados (pages 1%nat)).
Qed.

(** X10. When the search request fails in transport, the script shows the
    error with the cause followed by the message that no deputy was
    found, and requests no expenses. *)
Theorem script_search_failed
    (upstream : request → reply) (str_to_number : string → option number)
    (sort_values : tabela → tabela)
    (fuel : nat) (nome : string) (w : world) (e : request_exception) :
  nome ≠ "" →
  transport_failure (upstream (GET_deputados nome)) = Some e →
  script upstream str_to_number sort_values fuel nome true w
  = Some (Ok (),
          {| sent := sent w ++ [GET_deputados nome];
             page := page w ++ [error_buscar_deputado e; error_nenhum_deputado] |}).
Proof.
  intros Hnome%String.eqb_neq Hfail. unfold script. cbn [negb].
  rewrite Hnome, (buscar_deputado_id_failure upstream nome w e Hfail).
  unfold show, send. simpl. by rewrite <- app_assoc.
Qed.

Lemma script_search_failed_witness :
  script upstream_timeout Pd.decimal_literal Pd.insertion_sort 5 "Maria" true world0
  = Some (Ok (),
          {| sent := [GET_deputados "Maria"];
             page := [error_buscar_deputado (Timeout "timed out"); error_nenhum_deputado] |}).
Proof.
  apply (script_search_failed upstream_timeout Pd.decimal_literal Pd.insertion_sort
           5 "Maria" world0).
  - discriminate.
  - reflexivity.
Defined.

(** X11. When the search succeeds with an empty list, the script shows the
    message that no deputy was found, requests no expenses and runs no
    aggregation. *)
Theorem script_nobody_found
    (upstream : request → reply) (str_to_number : string → option number)
    (sort_values : tabela → tabela)
    (fuel : nat) (nome : string) (w : world) (r : Response) (dados : json) :
  nome ≠ "" →
  upstream (GET_deputados nome) = Responds r →
  ¬ (400 ≤ status_code r < 600) →
  body r = Some dados →
  Py.getitem dados "dados" = Ok (JArr []) →
  script upstream str_to_number sort_values fuel nome true w
  = Some (Ok (),
          {| sent := sent w ++ [GET_deputados nome];
             page := page w ++ [error_nenhum_deputado] |}).
Proof.
  intros Hnome%String.eqb_neq Hr Hst%status_ok_false Hb Hd. unfold script. cbn [negb].
  rewrite Hnome. run_M. by rewrite Hr, Hst, Hb, Hd.
Qed.

Lemma script_nobody_found_witness :
  script upstream_nobody Pd.decimal_literal Pd.insertion_sort 5 "Fulano" true world0
  = Some (Ok (), {| sent := [GET_deputados "Fulano"]; page := [error_nenhum_deputado] |}).
Proof.
  eapply (script_nobody_found upstream_nobody Pd.decimal_literal Pd.insertion_sort
           5 "Fulano" world0);
    first [discriminate | reflexivity | simpl; lia].
Defined.

(** X12. When the deputy is found and the request for the first page of
    expenses fails in transport, the script shows the confirmation, the
    error for page 1 and then the message that the deputy has no expense
    records. *)
Theorem script_first_page_failed
    (upstream : request → reply) (str_to_number : string → option number)
    (sort_values : tabela → tabela)
    (fuel : nat) (nome : string) (w : world) (info : Info.t) (e : request_exception) :
  nome ≠ "" →
  finds upstream nome info →
  transport_failure (upstream (GET_despesas (Info.id info) 1 100)) = Some e →
  script upstream str_to_number sort_values (S fuel) nome true w
  = Some (Ok (),
          {| sent := sent w ++ [GET_deputados nome; GET_despesas (Info.id info) 1 100];
             page := page w ++ [success_of info; error_buscar_despesas 1 e;
                                info_sem_despesas] |}).
Proof.
  intros Hnome Hfinds Hfail. rewrite (script_found _ _ _ _ _ _ info) by done.
  unfold buscar_todas_despesas.
  rewrite (while_True_failure upstream (Info.id info) e) by done.
  unfold show, send. simpl. by rewrite <- !app_assoc.
Qed.

Lemma finds_maria (despesas : nat → reply) (nome : string) :
  finds (upstream_of [maria] despesas) nome info_maria.
Proof.
  exists {| status_code := 200; body := Some (JObj [("dados", JArr [maria])]) |},
    (JObj [("dados", JArr [maria])]), maria, [].
  repeat split; first [reflexivity | simpl; lia].
Defined.

Lemma script_first_page_failed_witness :
  script upstream_refused Pd.decimal_literal Pd.insertion_sort 1 "Maria" true world0
  = Some (Ok (),
          {| sent := [GET_deputados "Maria"; GET_despesas (JInt 204379) 1 100];
             page := [success_of info_maria;
                      error_buscar_despesas 1 (ConnectionError "refused");
                      info_sem_despesas] |}).
Proof.
  apply (script_first_page_failed upstream_refused Pd.decimal_literal Pd.insertion_sort
           0 "Maria" world0
           info_maria).
  - discriminate.
  - apply finds_maria.
  - reflexivity.
Defined.

(** X13. When the deputy is found and the first page has no records, the
    script shows the confirmation and the message that the deputy has no
    expense records; it builds no frame. *)
Theorem script_no_expenses
    (upstream : request → reply) (str_to_number : string → option number)
    (sort_values : tabela → tabela)
    (fuel : nat) (nome : string) (w : world) (info : Info.t) (p : pagina_t) :
  nome ≠ "" →
  finds upstream nome info →
  upstream (GET_despesas (Info.id info) 1 100) = pagina_reply p →
  dados p = [] →
  script upstream str_to_number sort_values (S fuel) nome true w
  = Some (Ok (),
          {| sent := sent w ++ [GET_deputados nome; GET_despesas (Info.id info) 1 100];
             page := page w ++ [success_of info; info_sem_despesas] |}).
Proof.
  intros Hnome Hfinds Hp Hd. rewrite (script_found _ _ _ _ _ _ info) by done.
  unfold buscar_todas_despesas.
  rewrite (while_True_last upstream (Info.id info) p) by (done || by left).
  rewrite Hd. unfold show, send. simpl. by rewrite <- !app_assoc.
Qed.

Lemma script_no_expenses_witness :
  script upstream_empty Pd.decimal_literal Pd.insertion_sort 1 "Maria" true world0
  = Some (Ok (),
          {| sent := [GET_deputados "Maria"; GET_despesas (JInt 204379) 1 100];
             page := [success_of info_maria; info_sem_despesas] |}).
Proof.
  apply (script_no_expenses upstream_empty Pd.decimal_literal Pd.insertion_sort
           0 "Maria" world0 info_maria
           {| dados := []; links := [self_link] |}).
  - discriminate.
  - apply finds_maria.
  - reflexivity.
  - reflexivity.
Defined.

(** X14. When the request for a page [N] after the first fails in
    transport, the script goes on with the records of pages 1 to [N - 1]:
    after the error it shows their number, then the chart and the table
    of their totals. *)
Theorem script_partial_chart
    (upstream : request → reply) (str_to_number : string → option number)
    (sort_values : tabela → tabela)
    (fuel : nat) (nome : string) (w : world) (info : Info.t)
    (pages : nat → pagina_t) (N : nat) (e : request_exception) (t : tabela) :
  nome ≠ "" →
  finds upstream nome info →
  (2 ≤ N ≤ fuel)%nat →
  (∀ i, (1 ≤ i < N)%nat →
        upstream (GET_despesas (Info.id info) i 100) = pagina_reply (pages i)
        ∧ continues (pages i)) →
  transport_failure (upstream (GET_despesas (Info.id info) N 100)) = Some e →
  Pd.despesas_agrupadas str_to_number sort_values (records_of pages 1 (N - 1))
  = Some (Ok t) →
  script upstream str_to_number sort_values fuel nome true w
  = Some (Ok (),
          {| sent := sent w ++ GET_deputados nome :: page_requests (Info.id info) 1 N;
             page := page w ++ [success_of info; error_buscar_despesas N e;
                                info_total_registros (length (records_of pages 1 (N - 1)));
                                plotly_chart t; subheader_dados_agrupados; dataframe t] |}).
Proof.
  intros Hnome Hfinds HN Hup Hfail Hagg. rewrite (script_found _ _ _ _ _ _ info) by done.
  rewrite (buscar_todas_despesas_failure upstream (Info.id info) pages N fuel _ e)
    by (done || lia).
  pose proof (records_of_nonempty pages (N - 1) ltac:(lia)
                (proj2 (Hup 1%nat ltac:(lia)))) as Hne.
  destruct (records_of pages 1 (N - 1)) as [|x l] eqn:E; [done|].
  cbv zeta. rewrite Hagg. unfold show, send. simpl. by rewrite <- !app_assoc.
Qed.

Lemma script_partial_chart_witness :
  script upstream_D Pd.decimal_literal Pd.insertion_sort 5 "Maria" true world0
  = Some (Ok (),
          {| sent := [GET_deputados "Maria"; GET_despesas (JInt 204379) 1 100;
                      GET_despesas (JInt 204379) 2 100; GET_despesas (JInt 204379) 3 100];
             page := [success_of info_maria;
                      error_buscar_despesas 3 (Timeout "timed out");
                      info_total_registros 4;
                      plotly_chart [("Telefonia", NFloat 5); ("Combustível", NFloat 2)];
                      subheader_dados_agrupados;
                      dataframe [("Telefonia", NFloat 5); ("Combustível", NFloat 2)]] |}).
Proof.
  apply (script_partial_chart upstream_D Pd.decimal_literal Pd.insertion_sort
           5 "Maria" world0 info_maria
           pages_D 3).
  - discriminate.
  - apply finds_maria.
  - lia.
  - intros i Hi. assert (i = 1 ∨ i = 2)%nat as [-> | ->] by lia;
      (split; [reflexivity|split; [discriminate|reflexivity]]).
  - reflexivity.
  - vm_compute. reflexivity.
Defined.

(** X15. When the deputy is found and the pages end at page [k] with at
    least one record, the script sends the search and the requests for
    pages 1 to [k] of the id found, and shows the confirmation, the number
    of records, the chart, the subheader and the table, chart and table
    holding the same aggregated totals. *)
Theorem script_success
    (upstream : request → reply) (str_to_number : string → option number)
    (sort_values : tabela → tabela)
    (fuel : nat) (nome : string) (w : world) (info : Info.t)
    (pages : nat → pagina_t) (k : nat) (t : tabela) :
  nome ≠ "" →
  finds upstream nome info →
  (1 ≤ k ≤ fuel)%nat →
  (∀ i, (1 ≤ i ≤ k)%nat →
        upstream (GET_despesas (Info.id info) i 100) = pagina_reply (pages i)) →
  (∀ i, (1 ≤ i < k)%nat → continues (pages i)) →
  dados (pages k) = [] ∨ next_link (pages k) = false →
  records_of pages 1 k ≠ [] →
  Pd.despesas_agrupadas str_to_number sort_values (records_of pages 1 k) = Some (Ok t) →
  script upstream str_to_number sort_values fuel nome true w
  = Some (Ok (),
          {| sent := sent w ++ GET_deputados nome :: page_requests (Info.id info) 1 k;
             page := page w ++ [success_of info;
                                info_total_registros (length (records_of pages 1 k));
                                plotly_chart t; subheader_dados_agrupados; dataframe t] |}).
Proof.
  intros Hnome Hfinds Hk Hup Hcont Hlast Hne Hagg.
  rewrite (script_found _ _ _ _ _ _ info) by done.
  rewrite (buscar_todas_despesas_last upstream (Info.id info) pages k fuel) by done.
  destruct (records_of pages 1 k) as [|x l] eqn:E; [done|].
  cbv zeta. rewrite Hagg. unfold show, send. simpl. by rewrite <- !app_assoc.
Qed.

Lemma script_success_witness :
  script upstream_B Pd.decimal_literal Pd.insertion_sort 2 "Maria" true world0
  = Some (Ok (),
          {| sent := [GET_deputados "Maria"; GET_despesas (JInt 204379) 1 100;
                      GET_despesas (JInt 204379) 2 100];
             page := [success_of info_maria; info_total_registros 137;
                      plotly_chart [("Combustível", NFloat 137)];
                      subheader_dados_agrupados;
                      dataframe [("Combustível", NFloat 137)]] |}).
Proof.
  apply (script_success upstream_B Pd.decimal_literal Pd.insertion_sort 2 "Maria" world0 info_maria
           pages_B 2).
  - discriminate.
  - apply finds_maria.
  - lia.
  - intros i Hi. reflexivity.
  - intros i Hi. assert (i = 1%nat) as -> by lia. split; [discriminate|reflexivity].
  - right. reflexivity.
  - discriminate.
  - vm_compute. reflexivity.
Defined.

(** ** Aggregator *)

(** *** Columns *)

Lemma column_agree (k : string) (df df' : Pd.frame) :
  Forall2 (λ members members', Py.dict_get k members = Py.dict_get k members') df df' →
  Pd.column k df = Pd.column k df'.
Proof.
  intros H. unfold Pd.column.
  assert (existsb (λ row, bool_decide (is_Some (Py.dict_get k row))) df
          = existsb (λ row, bool_decide (is_Some (Py.dict_get k row))) df'
          ∧ (λ row, default JNull (Py.dict_get k row)) <$> df
            = (λ row, default JNull (Py.dict_get k row)) <$> df') as [-> ->]; [|done].
  induction H as [|m m' df df' Hm _ [IH1 IH2]]; [done|].
  rewrite !fmap_cons. cbn [existsb]. by rewrite Hm, IH1, IH2.
Qed.

(** X16. The aggregation reads [tipoDespesa] and [valorLiquido] only: two
    lists of records that agree on these two members, record by record,
    give the same outcome, table or exception. *)
Theorem aggregator_reads_two_columns
    (str_to_number : string → option number) (sort_values : tabela → tabela)
    (df df' : Pd.frame) :
  Forall2 same_columns df df' →
  Pd.despesas_agrupadas str_to_number sort_values (JObj <$> df)
  = Pd.despesas_agrupadas str_to_number sort_values (JObj <$> df').
Proof.
  intros H. unfold Pd.despesas_agrupadas, Pd.agrupar.
  rewrite (proj2 (DataFrame_Some (JObj <$> df) df) eq_refl).
  rewrite (proj2 (DataFrame_Some (JObj <$> df') df') eq_refl). cbn [mbind option_bind].
  rewrite (column_agree "valorLiquido" df df')
    by (eapply Forall2_impl; [exact H|]; by intros ?? [_ ?]).
  rewrite (column_agree "tipoDespesa" df df')
    by (eapply Forall2_impl; [exact H|]; by intros ?? [? _]).
  done.
Qed.

Lemma aggregator_reads_two_columns_witness :
  Pd.despesas_agrupadas Pd.decimal_literal Pd.insertion_sort
    [JObj [("tipoDespesa", JStr "Combustível"); ("valorLiquido", JStr "150.00")]]
  = Pd.despesas_agrupadas Pd.decimal_literal Pd.insertion_sort
      [JObj [("ano", JInt 2024); ("valorLiquido", JStr "150.00");
             ("dataDocumento", JStr "2024-03-01"); ("tipoDespesa", JStr "Combustível")]].
Proof.
  apply (aggregator_reads_two_columns Pd.decimal_literal Pd.insertion_sort
           [[("tipoDespesa", JStr "Combustível"); ("valorLiquido", JStr "150.00")]]
           [[("ano", JInt 2024); ("valorLiquido", JStr "150.00");
             ("dataDocumento", JStr "2024-03-01"); ("tipoDespesa", JStr "Combustível")]]).
  repeat constructor.
Defined.

(** *** Missing categories and amounts *)

Lemma compensated_sum_nan (fs : list float) (sumx compensation : float) :
  Forall (λ f, f = nan) fs → compensated_sum sumx compensation fs = sumx.
Proof.
  induction 1 as [|f fs -> _ IH]; [done|]. simpl. exact IH.
Qed.

Lemma column_total_missing (rows : list (option string * number)) (c : string) :
  Some c ∈ rows.*1 →
  Forall (λ n, n = NFloat nan) (amounts_of c rows) →
  column_total rows c = NFloat 0.
Proof.
  intros Hc Hnan. unfold column_total.
  destruct (mapM inteiro rows.*2) as [zs|] eqn:Hzs.
  - exfalso. assert (Forall (is_Some ∘ inteiro) (amounts_of c rows)) as Hint.
    { apply Forall_amounts_of, mapM_is_Some. by rewrite Hzs. }
    unfold amounts_of in *.
    apply list_elem_of_fmap in Hc as ([k v] & Hk & Hr). simpl in Hk. subst k.
    assert ((Some c, v) ∈ filter (λ r, r.1 = Some c) rows) as Hin.
    { by apply list_elem_of_filter. }
    apply (list_elem_of_fmap_2 snd) in Hin. simpl in Hin.
    rewrite Forall_forall in Hnan, Hint.
    specialize (Hint _ Hin) as [z Hz]. by rewrite (Hnan _ Hin) in Hz.
  - f_equal. unfold float64_sum. apply compensated_sum_nan.
    apply Forall_fmap. eapply Forall_impl; [exact Hnan|]. by intros n ->.
Qed.

(** X17. Whenever the aggregation produces a table, its rows are the
    categories of the records that have one, each once; a record whose
    category is null or absent enters no row; the total of a row is the
    sum of the amounts of its category in the arithmetic of the column, a
    null or absent amount being passed over; and a category all of whose
    amounts are missing has the total 0.0. *)
Theorem aggregator_gaps
    (str_to_number : string → option number) (sort_values : tabela → tabela)
    (lista_despesas : list json) (out : tabela) :
  Pd.despesas_agrupadas str_to_number sort_values lista_despesas = Some (Ok out) →
  (∀ g, Pd.agrupar str_to_number lista_despesas = Some (Ok g) → sort_values g ≡ₚ g) →
  ∃ df rows,
    lista_despesas = JObj <$> df
    ∧ Forall2 (reads str_to_number) df rows
    ∧ NoDup out.*1
    ∧ (∀ c, c ∈ out.*1 ↔ Some c ∈ rows.*1)
    ∧ (∀ c t, (c, t) ∈ out → t = column_total rows c)
    ∧ (∀ c, Some c ∈ rows.*1 → Forall (λ n, n = NFloat nan) (amounts_of c rows) →
            (c, NFloat 0) ∈ out).
Proof.
  intros (g & Hg & ->)%despesas_agrupadas_Ok Hsort.
  specialize (Hsort g Hg).
  apply agrupar_Ok in Hg as (df & rows & -> & _ & _ & Hrows & ->).
  exists df, rows. split; [done|]. split; [done|].
  assert (∀ c t, (c, t) ∈ sort_values
                   (Pd.reset_index (Pd.groupby_sum rows.*1 (Pd.Series rows.*2)))
                 ↔ Some c ∈ rows.*1 ∧ t = column_total rows c) as Hin.
  { intros c t. by rewrite Hsort, elem_of_grouped. }
  split; [|split; [|split]].
  - rewrite Hsort, reset_index_Permutation. apply NoDup_fst_map_to_list.
  - intros c. rewrite list_elem_of_fmap. split.
    + intros ([c' t] & -> & Hct). by apply Hin in Hct as [? _].
    + intros Hc. exists (c, column_total rows c). split; [done|]. by apply Hin.
  - by intros c t [_ ->]%Hin.
  - intros c Hc Hnan. apply Hin. split; [done|]. symmetry. by apply column_total_missing.
Qed.

Lemma aggregator_gaps_witness :
  ∃ df rows,
    JObj <$> frame_gaps = JObj <$> df
    ∧ Forall2 (reads Pd.decimal_literal) df rows
    ∧ NoDup [("Combustível", NFloat 10); ("Telefonia", NFloat 0)].*1
    ∧ (∀ c, c ∈ [("Combustível", NFloat 10); ("Telefonia", NFloat 0)].*1
            ↔ Some c ∈ rows.*1)
    ∧ (∀ c t, (c, t) ∈ [("Combustível", NFloat 10); ("Telefonia", NFloat 0)] →
              t = column_total rows c)
    ∧ (∀ c, Some c ∈ rows.*1 → Forall (λ n, n = NFloat nan) (amounts_of c rows) →
            (c, NFloat 0) ∈ [("Combustível", NFloat 10); ("Telefonia", NFloat 0)]).
Proof.
  apply (aggregator_gaps Pd.decimal_literal Pd.insertion_sort (JObj <$> frame_gaps)
           [("Combustível", NFloat 10); ("Telefonia", NFloat 0)]).
  - vm_compute. reflexivity.
  - intros g _. apply insertion_sort_Permutation.
Defined.
